(** * Superclaims backend: claim validation, decision policy and pipeline glue

    A shallow embedding of the claim-processing code of the repository:

    - [models/schemas.py]            the document records and the response types;
    - [agents/validator_agent.py]    [ValidatorAgent.validate];
    - [agents/orchestrator.py]       [_route_to_agent], [_make_decision] and
                                     steps 3 to 6 of [process_claim];
    - [agents/classifier_agent.py]   [ClassifierAgent.classify];
    - [agents/bill_agent.py], [agents/discharge_agent.py],
      [agents/id_card_agent.py]      the three extractors;
    - [utils/helpers.py]             [validate_pdf_files];
    - [main.py]                      the [/process-claim] endpoint.

    Conventions of the embedding.

    - A Python [str] is a Rocq [string]; [str.lower] and [str.strip] are given
      on the ASCII range (other characters are left alone and are no
      whitespace).
    - A Python [float] is one of NaN, an infinity, or a rational value; the
      code only compares floats with [0] and stores literals.
    - A Python [set] of strings is a [gset string]; [list(s)] is [elements s],
      whose order is as unspecified as Python's.
    - [logger] calls have no effect on results and are left out.
    - Calls to collaborators (the LLM client, the text extraction service, the
      file system, the orchestrator seen from the endpoint) are events of a
      program tree [Prog]; an exception is the [Raise] leaf.  Exceptions are
      the subclasses of [Exception], which is what [except Exception]
      catches. *)

From Stdlib Require Import ZArith QArith Ascii String Strings.Byte List Bool Lia.
From stdpp Require Import base gmap strings list pretty.

Local Open Scope Z_scope.
Local Open Scope stdpp_scope.

(** ** Python strings *)

Module PyStr.

Definition is_upper (c : ascii) : bool :=
  let n := N_of_ascii c in ((65 <=? n) && (n <=? 90))%N.

Definition lower_char (c : ascii) : ascii :=
  if is_upper c then ascii_of_N (N_of_ascii c + 32) else c.

(** [s.lower()] *)
Fixpoint lower (s : string) : string :=
  match s with
  | EmptyString => EmptyString
  | String c r => String (lower_char c) (lower r)
  end.

(** [str.isspace] on one ASCII character: TAB, LF, VT, FF, CR, FS, GS, RS,
    US and the space. *)
Definition is_space (c : ascii) : bool :=
  let n := N_of_ascii c in
  (((9 <=? n) && (n <=? 13)) || ((28 <=? n) && (n <=? 32)))%N.

Fixpoint lstrip (s : string) : string :=
  match s with
  | EmptyString => EmptyString
  | String c r => if is_space c then lstrip r else s
  end.

Fixpoint rstrip (s : string) : string :=
  match s with
  | EmptyString => EmptyString
  | String c r =>
      match rstrip r with
      | EmptyString => if is_space c then EmptyString else String c EmptyString
      | r' => String c r'
      end
  end.

(** [s.strip()] *)
Definition strip (s : string) : string := rstrip (lstrip s).

(** [kw in s]: [kw] occurs in [s] as a contiguous substring. *)
Fixpoint contains (kw s : string) : bool :=
  String.prefix kw s ||
  match s with
  | EmptyString => false
  | String _ r => contains kw r
  end.

(** [s.endswith(suffix)]: [suffix] is [s] or the end of its tail. *)
Fixpoint endswith (s suffix : string) : bool :=
  String.eqb s suffix ||
  match s with
  | EmptyString => false
  | String _ r => endswith r suffix
  end.

(** [sep.join(l)] *)
Definition join (sep : string) (l : list string) : string :=
  String.concat sep l.

(** Truth value of a string: non-empty. *)
Definition truthy (s : string) : bool :=
  match s with EmptyString => false | _ => true end.

End PyStr.

(** ** Python floats *)

Inductive float : Type :=
| FNaN
| FInf (negative : bool)
| FReal (q : Q).

(** [x <= 0]; every comparison with NaN is false. *)
Definition float_le0 (x : float) : bool :=
  match x with
  | FNaN => false
  | FInf negative => negative
  | FReal q => Qle_bool q 0
  end.

(** [x > 0] *)
Definition float_gt0 (x : float) : bool :=
  match x with
  | FNaN => false
  | FInf negative => negb negative
  | FReal q => negb (Qle_bool q 0)
  end.

(** ** models/schemas.py *)

Record BillDocument : Type := mkBill {
  hospital_name : string;
  total_amount : float;
  date_of_service : string;
  bill_patient_name : option string;
  bill_items : option (list string)
}.

Record DischargeSummaryDocument : Type := mkDischarge {
  discharge_patient_name : string;
  diagnosis : string;
  admission_date : string;
  discharge_date : string;
  treating_doctor : option string;
  procedures : option (list string)
}.

Record IDCardDocument : Type := mkIDCard {
  id_patient_name : string;
  policy_number : string;
  member_id : string;
  insurance_provider : option string
}.

(** [BillDocument | DischargeSummaryDocument | IDCardDocument] *)
Inductive Document : Type :=
| Bill (b : BillDocument)
| DischargeSummary (d : DischargeSummaryDocument)
| IDCard (c : IDCardDocument).

(** The [type] field: a [Literal] with one value per class. *)
Definition doc_type (d : Document) : string :=
  match d with
  | Bill _ => "bill"
  | DischargeSummary _ => "discharge_summary"
  | IDCard _ => "id_card"
  end.

(** [doc.patient_name]: optional on a bill, a plain string elsewhere. *)
Definition patient_name (d : Document) : option string :=
  match d with
  | Bill b => bill_patient_name b
  | DischargeSummary s => Some (discharge_patient_name s)
  | IDCard c => Some (id_patient_name c)
  end.

Record ValidationResult : Type := mkValidation {
  missing_documents : list string;
  discrepancies : list string
}.

Inductive Status : Type := approved | rejected | pending_review.

Record ClaimDecision : Type := mkDecision {
  status : Status;
  reason : string;
  confidence_score : option float
}.

Record ClaimProcessingResponse : Type := mkResponse {
  documents : list Document;
  validation : ValidationResult;
  claim_decision : ClaimDecision;
  total_files_processed : nat;
  document_types_found : list string;
  validation_status : string
}.

(** ** datetime.strptime(s, "%Y-%m-%d")

    The library compiles the format to the regular expression
    [(?P<Y>\d\d\d\d)-(?P<m>1[0-2]|0[1-9]|[1-9])-(?P<d>3[0-1]|[1-2]\d|0[1-9]|[1-9]| [1-9])],
    matches it at the start of the string with backtracking, rejects a match
    that leaves characters unread, and builds the date, which rejects year 0
    and a day that the month does not have. *)

Module Strptime.

Definition digit (c : ascii) : option Z :=
  let n := N_of_ascii c in
  if ((48 <=? n) && (n <=? 57))%N then Some (Z.of_N n - 48) else None.

Definition digit_in (lo hi : Z) (c : ascii) : option Z :=
  match digit c with
  | Some v => if (lo <=? v) && (v <=? hi) then Some v else None
  | None => None
  end.

(** Each matcher lists its ways to match a prefix, in the order in which a
    backtracking matcher tries them, with the rest of the input. *)
Definition matcher (A : Type) : Type := list ascii → list (A * list ascii).

Definition two (first : ascii → option Z) (second : ascii → option Z)
  : matcher Z := λ l,
  match l with
  | a :: b :: r =>
      match first a, second b with
      | Some x, Some y => [(10 * x + y, r)]
      | _, _ => []
      end
  | _ => []
  end.

Definition one (first : ascii → option Z) : matcher Z := λ l,
  match l with
  | a :: r => match first a with Some x => [(x, r)] | None => [] end
  | _ => []
  end.

Definition space_then (first : ascii → option Z) : matcher Z := λ l,
  match l with
  | a :: b :: r =>
      if Ascii.eqb a " " then
        match first b with Some x => [(x, r)] | None => [] end
      else []
  | _ => []
  end.

Definition literal (c : ascii) : matcher unit := λ l,
  match l with
  | a :: r => if Ascii.eqb a c then [(tt, r)] else []
  | _ => []
  end.

(** [\d\d\d\d] *)
Definition year : matcher Z := λ l,
  match l with
  | a :: b :: c :: d :: r =>
      match digit a, digit b, digit c, digit d with
      | Some x, Some y, Some z, Some w =>
          [(1000 * x + 100 * y + 10 * z + w, r)]
      | _, _, _, _ => []
      end
  | _ => []
  end.

(** [1[0-2]|0[1-9]|[1-9]] *)
Definition month : matcher Z := λ l,
  two (digit_in 1 1) (digit_in 0 2) l
  ++ two (digit_in 0 0) (digit_in 1 9) l
  ++ one (digit_in 1 9) l.

(** [3[0-1]|[1-2]\d|0[1-9]|[1-9]| [1-9]] *)
Definition day : matcher Z := λ l,
  two (digit_in 3 3) (digit_in 0 1) l
  ++ two (digit_in 1 2) (digit_in 0 9) l
  ++ two (digit_in 0 0) (digit_in 1 9) l
  ++ one (digit_in 1 9) l
  ++ space_then (digit_in 1 9) l.

(** All matches of the whole expression, in backtracking order. *)
Definition matches (l : list ascii) : list (Z * Z * Z * list ascii) :=
  '(y, r1) ← year l;
  '(_, r2) ← literal "-" r1;
  '(m, r3) ← month r2;
  '(_, r4) ← literal "-" r3;
  '(d, r5) ← day r4;
  [(y, m, d, r5)].

Definition is_leap (y : Z) : bool :=
  (y mod 4 =? 0) && (negb (y mod 100 =? 0) || (y mod 400 =? 0)).

Definition days_in_month (y m : Z) : Z :=
  if m =? 2 then (if is_leap y then 29 else 28)
  else if (m =? 4) || (m =? 6) || (m =? 9) || (m =? 11) then 30
  else 31.

(** A date as (year, month, day). *)
Definition date : Type := Z * Z * Z.

(** [None] stands for the [ValueError] that [strptime] raises. *)
Definition strptime (s : string) : option date :=
  match matches (list_ascii_of_string s) with
  | (y, m, d, rest) :: _ =>
      match rest with
      | [] =>
          if (1 <=? y) && (d <=? days_in_month y m)
          then Some (y, m, d) else None
      | _ :: _ => None
      end
  | [] => None
  end.

(** [a < b] on dates *)
Definition date_ltb (a b : date) : bool :=
  let '(y1, m1, d1) := a in
  let '(y2, m2, d2) := b in
  (y1 <? y2) || ((y1 =? y2) && ((m1 <? m2) || ((m1 =? m2) && (d1 <? d2)))).

End Strptime.

(** ** agents/validator_agent.py *)

Definition required_types : gset string :=
  {[ "bill"; "discharge_summary"; "id_card" ]}.

(** [{doc.type for doc in documents}] *)
Definition doc_types (documents : list Document) : gset string :=
  list_to_set (doc_type <$> documents).

(** [next((d for d in documents if d.type == ty), None)] *)
Definition next_of_type (ty : string) (documents : list Document)
  : option Document :=
  List.find (λ d, String.eqb (doc_type d) ty) documents.

Definition msg_name_mismatch : string := "Patient name mismatch across documents".
Definition msg_date_order : string := "Discharge date is before admission date".
Definition msg_bill_amount : string := "Invalid bill amount (must be positive)".
Definition msg_policy_number : string := "Missing or invalid policy number".
Definition msg_member_id : string := "Missing or invalid member ID".

(** The list [patient_names] built by the first loop. *)
Fixpoint patient_names (documents : list Document) : list (string * string) :=
  match documents with
  | [] => []
  | doc :: rest =>
      match patient_name doc with
      | Some n =>
          if PyStr.truthy n
          then (doc_type doc, PyStr.strip (PyStr.lower n)) :: patient_names rest
          else patient_names rest
      | None => patient_names rest
      end
  end.

Definition check_names (documents : list Document) : list string :=
  let names := patient_names documents in
  if (1 <? length names)%nat then
    let unique_names : gset string := list_to_set (snd <$> names) in
    if (1 <? size unique_names)%nat then [msg_name_mismatch] else []
  else [].

Definition check_dates (documents : list Document) : list string :=
  match next_of_type "discharge_summary" documents with
  | Some (DischargeSummary discharge_doc) =>
      match Strptime.strptime (admission_date discharge_doc) with
      | Some admission =>
          match Strptime.strptime (discharge_date discharge_doc) with
          | Some discharge =>
              if Strptime.date_ltb discharge admission
              then [msg_date_order] else []
          | None => []
          end
      | None => []
      end
  | _ => []
  end.

Definition check_bill (documents : list Document) : list string :=
  match next_of_type "bill" documents with
  | Some (Bill bill_doc) =>
      if float_le0 (total_amount bill_doc) then [msg_bill_amount] else []
  | _ => []
  end.

Definition check_id_card (documents : list Document) : list string :=
  match next_of_type "id_card" documents with
  | Some (IDCard id_doc) =>
      (if negb (PyStr.truthy (policy_number id_doc))
          || String.eqb (policy_number id_doc) "UNKNOWN"
       then [msg_policy_number] else [])
      ++
      (if negb (PyStr.truthy (member_id id_doc))
          || String.eqb (member_id id_doc) "UNKNOWN"
       then [msg_member_id] else [])
  | _ => []
  end.

(** [ValidatorAgent.validate] *)
Definition validate (documents : list Document) : ValidationResult :=
  let missing := required_types ∖ doc_types documents in
  {| missing_documents := elements missing;
     discrepancies :=
       check_names documents ++ check_dates documents
       ++ check_bill documents ++ check_id_card documents |}.

(** ** agents/orchestrator.py: the decision policy *)

(** [ClaimOrchestrator._make_decision] *)
Definition _make_decision (documents : list Document)
    (validation : ValidationResult) : ClaimDecision :=
  let doc_types := doc_types documents in
  match missing_documents validation with
  | _ :: _ =>
      {| status := rejected;
         reason := "Missing required documents: "
                   +:+ PyStr.join ", " (missing_documents validation);
         confidence_score := Some (FReal 1.0) |}
  | [] =>
      match discrepancies validation with
      | _ :: _ =>
          {| status := pending_review;
             reason := "Data discrepancies found - manual review required: "
                       +:+ PyStr.join "; " (take 2 (discrepancies validation));
             confidence_score := Some (FReal 0.6) |}
      | [] =>
          if bool_decide (required_types ⊆ doc_types) then
            {| status := approved;
               reason := "All required documents present and data is consistent";
               confidence_score := Some (FReal 0.95) |}
          else
            {| status := rejected;
               reason := "Incomplete documentation";
               confidence_score := Some (FReal 0.8) |}
      end
  end.

(** ** Exceptions and programs that call collaborators *)

Inductive exn : Type :=
| ValueError (msg : string)
| HTTPException (status_code : Z) (detail : string)
| OtherException (class_name msg : string).

(** [str(e)]: the message of an exception; Starlette's [HTTPException],
    which FastAPI's derives from, prints as its status, a colon and its
    detail. *)
Definition exn_str (e : exn) : string :=
  match e with
  | ValueError msg => msg
  | HTTPException status_code detail => pretty status_code +:+ ": " +:+ detail
  | OtherException _ msg => msg
  end.

Inductive result (A : Type) : Type :=
| Ok (a : A)
| Err (e : exn).
Arguments Ok {A} a.
Arguments Err {A} e.

(** A program is a tree: it returns, raises, or calls a collaborator with an
    event [ev : E X] and goes on with the answer of type [X]. *)
Inductive Prog (E : Type → Type) (A : Type) : Type :=
| Ret (a : A)
| Raise (e : exn)
| Vis {X : Type} (ev : E X) (k : X → Prog E A).
Arguments Ret {E A} a.
Arguments Raise {E A} e.
Arguments Vis {E A X} ev k.

Fixpoint bind {E A B} (p : Prog E A) (f : A → Prog E B) : Prog E B :=
  match p with
  | Ret a => f a
  | Raise e => Raise e
  | Vis ev k => Vis ev (λ x, bind (k x) f)
  end.

(** [try: p except Exception as e: h e] *)
Fixpoint try_except {E A} (p : Prog E A) (h : exn → Prog E A) : Prog E A :=
  match p with
  | Ret a => Ret a
  | Raise e => h e
  | Vis ev k => Vis ev (λ x, try_except (k x) h)
  end.

(** A pure computation that may raise. *)
Definition lift {E A} (r : result A) : Prog E A :=
  match r with Ok a => Ret a | Err e => Raise e end.

(** A call whose collaborator answers with a value or an exception. *)
Definition call {E A} (ev : E (result A)) : Prog E A := Vis ev lift.

#[global] Instance Prog_ret {E} : MRet (Prog E) := λ A, Ret.
#[global] Instance Prog_bind {E} : MBind (Prog E) := λ A B f p, bind p f.

(** The collaborators' side: a handler answers each event and keeps a state
    of its own (a script of answers, a log of calls, ...). *)
Definition handler (E : Type → Type) (S : Type) : Type :=
  ∀ X, E X → S → X * S.

Fixpoint run {E S A} (h : handler E S) (p : Prog E A) (s : S)
  : result A * S :=
  match p with
  | Ret a => (Ok a, s)
  | Raise e => (Err e, s)
  | Vis ev k => let '(x, s') := h _ ev s in run h (k x) s'
  end.

(** The events a program performs under a handler, in order. *)
Inductive some_event (E : Type → Type) : Type :=
| Event {X : Type} (ev : E X).
Arguments Event {E X} ev.

Fixpoint trace {E S A} (h : handler E S) (p : Prog E A) (s : S)
  : list (some_event E) :=
  match p with
  | Ret _ | Raise _ => []
  | Vis ev k => let '(x, s') := h _ ev s in Event ev :: trace h (k x) s'
  end.

(** ** The collaborators of the pipeline

    [json] is what [json.loads] returns, and the three [*_init] functions are
    the pydantic constructors, called with the response as keyword arguments,
    which check it against the model and raise when it does not fit. *)
Class Pydantic : Type := {
  json : Type;
  BillDocument_init : json → result BillDocument;
  DischargeSummaryDocument_init : json → result DischargeSummaryDocument;
  IDCardDocument_init : json → result IDCardDocument
}.

Inductive Schema : Type :=
| BillDocument_schema
| DischargeSummaryDocument_schema
| IDCardDocument_schema.

Section Pipeline.
Context `{Pydantic}.

(** [LLMService.get_completion] (its result [response.text] can be [None]),
    [LLMService.get_structured_output] and [PDFService.extract_text]. *)
Inductive Collab : Type → Type :=
| get_completion (prompt system_prompt : string)
    : Collab (result (option string))
| get_structured_output (prompt system_prompt : string) (schema : Schema)
    : Collab (result json)
| extract_text (pdf_path : string) : Collab (result string).

(** *** agents/classifier_agent.py *)

Definition classifier_system_prompt : string :=
"You are a document classification expert for medical insurance claims.
Given a filename, classify it into ONE of these types:
- bill: Medical bills, invoices, payment receipts
- discharge_summary: Hospital discharge summaries, medical reports
- id_card: Insurance ID cards, policy documents

Respond ONLY with: bill, discharge_summary, or id_card".

Definition bill_keywords : list string :=
  ["bill"; "invoice"; "payment"; "receipt"].
Definition discharge_keywords : list string :=
  ["discharge"; "summary"; "report"].
Definition id_keywords : list string :=
  ["id"; "card"; "policy"; "insurance"].

(** [any(kw in s for kw in kws)] *)
Definition any_in (kws : list string) (s : string) : bool :=
  existsb (λ kw, PyStr.contains kw s) kws.

Definition valid_types : list string := ["bill"; "discharge_summary"; "id_card"].

(** [ClassifierAgent.classify]; [file_path] is not used. *)
Definition classify (filename : string) : Prog Collab string :=
  let filename_lower := PyStr.lower filename in
  if any_in bill_keywords filename_lower then Ret "bill"
  else if any_in discharge_keywords filename_lower then Ret "discharge_summary"
  else if any_in id_keywords filename_lower then Ret "id_card"
  else
    try_except
      (text ← call (get_completion ("Classify this document: " +:+ filename)
                      classifier_system_prompt);
       match text with
       | None =>
           Raise (OtherException "AttributeError"
                    "'NoneType' object has no attribute 'strip'")
       | Some classification =>
           let classification := PyStr.lower (PyStr.strip classification) in
           if existsb (String.eqb classification) valid_types
           then Ret classification
           else Ret "bill"
       end)
      (λ _, Ret "bill").

(** *** The three extractors *)

Definition dq : string := String "034" EmptyString.
Definition nl : string := String "010" EmptyString.
Definition quoted (s : string) : string := dq +:+ s +:+ dq.
Definition json_field (name value : string) : string :=
  "    " +:+ quoted name +:+ ": " +:+ value.

(** [text[:n]] *)
Definition str_take (n : nat) (s : string) : string := String.substring 0 n s.

Definition extraction_prompt (what text : string) : string :=
  "Extract data from this " +:+ what +:+ ":" +:+ nl +:+ nl
  +:+ str_take 3000 text +:+ nl +:+ nl +:+ "Return valid JSON only.".

Definition bill_system_prompt : string :=
  PyStr.join nl [
    "You are an expert at extracting information from medical bills.";
    "Extract and return ONLY valid JSON (no markdown):";
    "{";
    json_field "type" (quoted "bill" +:+ ",");
    json_field "hospital_name" (quoted "hospital name" +:+ ",");
    json_field "total_amount" "numeric_amount,";
    json_field "date_of_service" (quoted "YYYY-MM-DD" +:+ ",");
    json_field "patient_name" (quoted "patient name or null" +:+ ",");
    json_field "bill_items"
      ("[" +:+ quoted "item1" +:+ ", " +:+ quoted "item2" +:+ "] or null");
    "}" ].

Definition discharge_system_prompt : string :=
  PyStr.join nl [
    "You are an expert at extracting information from hospital discharge summaries.";
    "Extract and return ONLY valid JSON (no markdown):";
    "{";
    json_field "type" (quoted "discharge_summary" +:+ ",");
    json_field "patient_name" (quoted "full patient name" +:+ ",");
    json_field "diagnosis" (quoted "primary diagnosis" +:+ ",");
    json_field "admission_date" (quoted "YYYY-MM-DD" +:+ ",");
    json_field "discharge_date" (quoted "YYYY-MM-DD" +:+ ",");
    json_field "treating_doctor" (quoted "doctor name or null" +:+ ",");
    json_field "procedures"
      ("[" +:+ quoted "procedure1" +:+ ", " +:+ quoted "procedure2"
       +:+ "] or null");
    "}" ].

Definition id_card_system_prompt : string :=
  PyStr.join nl [
    "You are an expert at extracting information from insurance ID cards.";
    "Extract and return ONLY valid JSON (no markdown):";
    "{";
    json_field "type" (quoted "id_card" +:+ ",");
    json_field "patient_name" (quoted "full patient name" +:+ ",");
    json_field "policy_number" (quoted "policy number" +:+ ",");
    json_field "member_id" (quoted "member/subscriber ID" +:+ ",");
    json_field "insurance_provider" (quoted "insurance company name or null");
    "}" ].

(** The records the extractors fall back to. *)
Definition bill_sentinel : BillDocument :=
  {| hospital_name := "Unknown Hospital";
     total_amount := FReal 0.0;
     date_of_service := "2024-01-01";
     bill_patient_name := None;
     bill_items := None |}.

Definition discharge_sentinel : DischargeSummaryDocument :=
  {| discharge_patient_name := "Unknown Patient";
     diagnosis := "Unknown";
     admission_date := "2024-01-01";
     discharge_date := "2024-01-02";
     treating_doctor := None;
     procedures := None |}.

Definition id_card_sentinel : IDCardDocument :=
  {| id_patient_name := "Unknown";
     policy_number := "UNKNOWN";
     member_id := "UNKNOWN";
     insurance_provider := None |}.

(** [BillAgent.process] *)
Definition BillAgent_process (text filename : string)
  : Prog Collab BillDocument :=
  let prompt := extraction_prompt "medical bill" text in
  try_except
    (response ← call (get_structured_output prompt bill_system_prompt
                        BillDocument_schema);
     lift (BillDocument_init response))
    (λ _, Ret bill_sentinel).

(** [DischargeAgent.process] *)
Definition DischargeAgent_process (text filename : string)
  : Prog Collab DischargeSummaryDocument :=
  let prompt := extraction_prompt "discharge summary" text in
  try_except
    (response ← call (get_structured_output prompt discharge_system_prompt
                        DischargeSummaryDocument_schema);
     lift (DischargeSummaryDocument_init response))
    (λ _, Ret discharge_sentinel).

(** [IDCardAgent.process] *)
Definition IDCardAgent_process (text filename : string)
  : Prog Collab IDCardDocument :=
  let prompt := extraction_prompt "insurance ID card" text in
  try_except
    (response ← call (get_structured_output prompt id_card_system_prompt
                        IDCardDocument_schema);
     lift (IDCardDocument_init response))
    (λ _, Ret id_card_sentinel).

(** *** agents/orchestrator.py: routing *)

(** The agents an orchestrator holds ([self.bill_agent] and so on), each
    by its [process] method. *)
Record ClaimOrchestrator : Type := mkOrchestrator {
  bill_agent : string → string → Prog Collab BillDocument;
  discharge_agent : string → string → Prog Collab DischargeSummaryDocument;
  id_card_agent : string → string → Prog Collab IDCardDocument
}.

(** [ClaimOrchestrator.__init__] *)
Definition ClaimOrchestrator_init : ClaimOrchestrator :=
  {| bill_agent := BillAgent_process;
     discharge_agent := DischargeAgent_process;
     id_card_agent := IDCardAgent_process |}.

(** [agent_map.get(doc_type)], as the [process] method of the agent found *)
Definition agent_map (self : ClaimOrchestrator) (doc_type : string)
  : option (string → string → Prog Collab Document) :=
  if String.eqb doc_type "bill" then
    Some (λ text filename, bind (bill_agent self text filename) (λ d, Ret (Bill d)))
  else if String.eqb doc_type "discharge_summary" then
    Some (λ text filename,
            bind (discharge_agent self text filename) (λ d, Ret (DischargeSummary d)))
  else if String.eqb doc_type "id_card" then
    Some (λ text filename, bind (id_card_agent self text filename) (λ d, Ret (IDCard d)))
  else None.

(** [ClaimOrchestrator._route_to_agent]; [None] is Python's [None]. *)
Definition _route_to_agent (self : ClaimOrchestrator)
    (doc_type text filename : string) : Prog Collab (option Document) :=
  match agent_map self doc_type with
  | Some process =>
      try_except
        (bind (process text filename) (λ d, Ret (Some d)))
        (λ _, Ret None)
  | None => Ret None
  end.

(** One entry of [file_paths]: a dict with the keys [path] and [filename]. *)
Record FileInfo : Type := mkFileInfo {
  fi_path : string;
  fi_filename : string
}.

(** Step 3 of [ClaimOrchestrator.process_claim]: the loop over
    [zip(file_paths, classifications, extracted_texts)] that routes each
    file and appends what the routing returns, unless it is [None]. *)
Fixpoint route_documents (self : ClaimOrchestrator)
    (items : list (FileInfo * string * string)) (documents : list Document)
  : Prog Collab (list Document) :=
  match items with
  | [] => Ret documents
  | (file_info, classification, text) :: rest =>
      doc_data ← _route_to_agent self classification text (fi_filename file_info);
      route_documents self rest
        (match doc_data with
         | Some d => documents ++ [d]
         | None => documents
         end)
  end.

(** [zip] of three lists *)
Definition zip3 {A B C} (l1 : list A) (l2 : list B) (l3 : list C)
  : list (A * B * C) :=
  zip (zip l1 l2) l3.

(** Steps 3 to 6 of [ClaimOrchestrator.process_claim], from the results of
    the two concurrent stages (classification and text extraction). *)
Definition process_claim_stages_3_to_6 (self : ClaimOrchestrator)
    (file_paths : list FileInfo) (classifications extracted_texts : list string)
  : Prog Collab ClaimProcessingResponse :=
  documents ← route_documents self
                (zip3 file_paths classifications extracted_texts) [];
  let validation_result := validate documents in
  let claim_decision := _make_decision documents validation_result in
  Ret {| documents := documents;
         validation := validation_result;
         claim_decision := claim_decision;
         total_files_processed := length file_paths;
         document_types_found := doc_type <$> documents;
         validation_status :=
           match discrepancies validation_result with
           | [] => "passed"
           | _ :: _ => "issues_found"
           end |}.
End Pipeline.

(** ** utils/helpers.py *)

(** An upload as the framework hands it over: the name of the multipart part
    and its bytes.  [validate_pdf_files] reads each stream in full and rewinds
    it, so that the endpoint reads the same bytes again. *)
Record UploadFile : Type := mkUpload {
  filename : string;
  content : list byte
}.

Definition MAX_FILE_SIZE : Z := 25 * 1024 * 1024.

(** [f"{n / (1024 * 1024):.2f}"]: the quotient is exact in binary64 (a
    division by a power of two), and the format rounds it to two decimals,
    a tie going to the even neighbour. *)
Definition format_size_mb (n : Z) : string :=
  let num := n * 100 in
  let den := 1024 * 1024 in
  let q := num / den in
  let r := num mod den in
  let hundredths :=
    if 2 * r <? den then q
    else if den <? 2 * r then q + 1
    else if Z.even q then q else q + 1 in
  pretty (hundredths / 100) +:+ "."
  +:+ (if hundredths mod 100 <? 10 then "0" else EmptyString)
  +:+ pretty (hundredths mod 100).

Definition msg_no_files : string := "❌ At least one PDF file required".
Definition msg_not_pdf (name : string) : string :=
  "❌ '" +:+ name +:+ "' is not a PDF".
Definition msg_invalid_filename : string := "❌ Invalid filename".
Definition msg_too_large (name : string) (size : Z) : string :=
  "❌ '" +:+ name +:+ "' exceeds 25MB (" +:+ format_size_mb size +:+ "MB)".
Definition msg_empty (name : string) : string :=
  "❌ '" +:+ name +:+ "' is empty".

(** The body of the loop, for one file. *)
Definition validate_pdf_file (file : UploadFile) : result unit :=
  if negb (PyStr.endswith (PyStr.lower (filename file)) ".pdf") then
    Err (ValueError (msg_not_pdf (filename file)))
  else if negb (PyStr.truthy (filename file)) then
    Err (ValueError msg_invalid_filename)
  else
    let size := Z.of_nat (length (content file)) in
    if MAX_FILE_SIZE <? size then
      Err (ValueError (msg_too_large (filename file) size))
    else if size =? 0 then
      Err (ValueError (msg_empty (filename file)))
    else Ok tt.

Fixpoint validate_each (files : list UploadFile) : result bool :=
  match files with
  | [] => Ok true
  | file :: rest =>
      match validate_pdf_file file with
      | Err e => Err e
      | Ok _ => validate_each rest
      end
  end.

(** [validate_pdf_files] *)
Definition validate_pdf_files (files : list UploadFile) : result bool :=
  if (length files <? 1)%nat then Err (ValueError msg_no_files)
  else validate_each files.

(** ** main.py: the endpoint *)

(** What the endpoint calls: the temporary directory, the write of one upload
    into it (which answers with the path written), and the orchestrator. *)
Inductive Endpoint : Type → Type :=
| TemporaryDirectory : Endpoint (result string)
| write_upload (temp_dir name : string) (data : list byte)
    : Endpoint (result string)
| orchestrator_process_claim (file_paths : list FileInfo)
    : Endpoint (result ClaimProcessingResponse).

Fixpoint save_uploads (temp_dir : string) (files : list UploadFile)
    (file_paths : list FileInfo) : Prog Endpoint (list FileInfo) :=
  match files with
  | [] => Ret file_paths
  | file :: rest =>
      file_path ← call (write_upload temp_dir (filename file) (content file));
      save_uploads temp_dir rest
        (file_paths ++ [ {| fi_path := file_path; fi_filename := filename file |} ])
  end.

Section EndpointCode.
(** The class hierarchy, as far as the endpoint looks at it: the names of
    the classes that derive from [ValueError] ([json.JSONDecodeError] and
    pydantic's [ValidationError] do). *)
Variable value_error_subclass : string → bool.

(** [isinstance(e, ValueError)], which is what [except ValueError] tests:
    the class itself or a class derived from it. *)
Definition isinstance_ValueError (e : exn) : bool :=
  match e with
  | ValueError _ => true
  | HTTPException _ _ => false
  | OtherException class_name _ => value_error_subclass class_name
  end.

(** [process_claim] of [main.py]; [orchestrator] tells whether the global
    orchestrator was built at start-up (it is [None] when that failed). *)
Definition process_claim (orchestrator : bool) (files : list UploadFile)
  : Prog Endpoint ClaimProcessingResponse :=
  if negb orchestrator then
    Raise (HTTPException 503
             "Orchestrator not initialized. Check API keys and configuration.")
  else
    try_except
      (_ ← lift (validate_pdf_files files);
       temp_dir ← call TemporaryDirectory;
       file_paths ← save_uploads temp_dir files [];
       call (orchestrator_process_claim file_paths))
      (λ e, if isinstance_ValueError e
            then Raise (HTTPException 400 (exn_str e))
            else Raise (HTTPException 500
                          ("Internal server error: " +:+ exn_str e))).
End EndpointCode.

(** ** services/llm_service.py and services/pdf_service.py

    The two services are thin layers over the model client and the file
    system.  [json_loads] is [json.loads], whose failure is a
    [JSONDecodeError] with the given text; [path_suffix] is the [suffix] of
    a [pathlib.Path].  The services are the ones the agents build: the
    provider is "gemini". *)

(** The [contents] of a request to the model: a prompt, or the bytes of a
    PDF followed by a prompt. *)
Inductive Contents : Type :=
| TextContents (prompt : string)
| PdfContents (data : list byte) (prompt : string).

Record GenerateContentConfig : Type := mkConfig {
  temperature : float;
  response_mime_type : option string;
  response_schema : option Schema
}.

(** What the services call: [client.models.generate_content], answered by
    the [text] of the response (which can be [None]) or by an exception,
    and [Path.exists] and [Path.read_bytes]. *)
Inductive Sys : Type → Type :=
| generate_content (model : string) (contents : Contents)
    (config : GenerateContentConfig) : Sys (result (option string))
| path_exists (p : string) : Sys bool
| read_bytes (p : string) : Sys (result (list byte)).

Definition gemini_model : string := "gemini-2.0-flash-exp".

Definition pdf_extraction_prompt : string :=
  "Extract ALL text content from this document. Include names, dates, amounts, diagnoses, etc.".

Definition pdf_placeholder : string := "[PDF content could not be extracted]".

Section Services.
Context `{Pydantic}.
Variable json_loads : string → string + json.
Variable path_suffix : string → string.

(** [LLMService.get_completion] *)
Definition LLMService_get_completion (prompt : string)
    (system_prompt : option string) : Prog Sys (option string) :=
  try_except
    (let full_prompt :=
       match system_prompt with
       | Some sp =>
           if PyStr.truthy sp then sp +:+ nl +:+ nl +:+ prompt else prompt
       | None => prompt
       end in
     call (generate_content gemini_model (TextContents full_prompt)
             {| temperature := FReal 0.3;
                response_mime_type := None;
                response_schema := None |}))
    (λ e, Raise e).

(** [LLMService.get_structured_output]; the first handler is the one for
    [json.JSONDecodeError], the second the one for [Exception]. *)
Definition LLMService_get_structured_output (prompt system_prompt : string)
    (schema : Schema) : Prog Sys json :=
  try_except
    (let full_prompt :=
       system_prompt +:+ nl +:+ nl +:+ prompt +:+ nl +:+ nl
       +:+ "IMPORTANT: Return ONLY valid JSON. No markdown." in
     text ← call (generate_content gemini_model (TextContents full_prompt)
                    {| temperature := FReal 0.0;
                       response_mime_type := Some "application/json";
                       response_schema := Some schema |});
     match text with
     | None =>
         Raise (OtherException "TypeError"
                  "the JSON object must be str, bytes or bytearray, not NoneType")
     | Some t =>
         match json_loads t with
         | inl msg => Raise (OtherException "JSONDecodeError" msg)
         | inr result => Ret result
         end
     end)
    (λ e, match e with
          | OtherException class_name msg =>
              if String.eqb class_name "JSONDecodeError"
              then Raise (ValueError ("Invalid JSON from LLM: " +:+ msg))
              else Raise e
          | _ => Raise e
          end).

(** [PDFService.extract_text] *)
Definition PDFService_extract_text (pdf_path : string) : Prog Sys string :=
  try_except
    (Vis (path_exists pdf_path) (λ found : bool,
       if negb found then
         Raise (OtherException "FileNotFoundError"
                  ("❌ PDF not found: " +:+ pdf_path))
       else if negb (String.eqb (PyStr.lower (path_suffix pdf_path)) ".pdf") then
         Raise (ValueError ("❌ Not a PDF file: " +:+ pdf_path))
       else
         pdf_data ← call (read_bytes pdf_path);
         text ← call (generate_content gemini_model
                        (PdfContents pdf_data pdf_extraction_prompt)
                        {| temperature := FReal 0.0;
                           response_mime_type := None;
                           response_schema := None |});
         match text with
         | Some extracted_text =>
             if negb (PyStr.truthy extracted_text)
                || (String.length (PyStr.strip extracted_text) =? 0)%nat
             then Ret pdf_placeholder
             else Ret extracted_text
         | None => Ret pdf_placeholder
         end))
    (λ e, Raise e).

(** The collaborators of the pipeline, played by the two services over a
    system [h]: each call runs the service's method, whose result or
    exception is the answer. *)
Definition services_handler {S : Type} (h : handler Sys S) : handler Collab S :=
  λ X ev s,
    match ev in Collab X return X * S with
    | get_completion prompt system_prompt =>
        run h (LLMService_get_completion prompt (Some system_prompt)) s
    | get_structured_output prompt system_prompt schema =>
        run h (LLMService_get_structured_output prompt system_prompt schema) s
    | extract_text pdf_path => run h (PDFService_extract_text pdf_path) s
    end.
End Services.

(** * Vocabulary of the properties *)

Definition fallback_decision : ClaimDecision :=
  {| status := rejected;
     reason := "Incomplete documentation";
     confidence_score := Some (FReal 0.8) |}.

Definition sample_bill : Document :=
  Bill {| hospital_name := "City Hospital";
          total_amount := FReal 150.0;
          date_of_service := "2024-01-05";
          bill_patient_name := Some "John Doe";
          bill_items := None |}.

Definition sample_discharge : Document :=
  DischargeSummary {| discharge_patient_name := "John Doe";
                      diagnosis := "Flu";
                      admission_date := "2024-01-05";
                      discharge_date := "2024-01-10";
                      treating_doctor := None;
                      procedures := None |}.

Definition sample_id_card : Document :=
  IDCard {| id_patient_name := "John Doe";
            policy_number := "POL123";
            member_id := "MEM456";
            insurance_provider := None |}.

(** [d] is the first document of its type in [documents]. *)
Definition first_of_type (d : Document) (documents : list Document) : Prop :=
  ∃ pre rest,
    documents = pre ++ d :: rest ∧ ∀ x, x ∈ pre → doc_type x ≠ doc_type d.

Definition discharge_with_dates (admission discharge : string) : Document :=
  DischargeSummary {| discharge_patient_name := "John Doe";
                      diagnosis := "Flu";
                      admission_date := admission;
                      discharge_date := discharge;
                      treating_doctor := None;
                      procedures := None |}.

Definition bill_with_amount (amount : float) : Document :=
  Bill {| hospital_name := "City Hospital";
          total_amount := amount;
          date_of_service := "2024-01-05";
          bill_patient_name := None;
          bill_items := None |}.

Definition id_card_with (policy member : string) : Document :=
  IDCard {| id_patient_name := "John Doe";
            policy_number := policy;
            member_id := member;
            insurance_provider := None |}.

(** The name a document contributes to the comparison: its non-empty
    patient name, lower-cased and stripped. *)
Definition contributes_name (d : Document) (n : string) : Prop :=
  ∃ raw, patient_name d = Some raw ∧ raw ≠ EmptyString
         ∧ n = PyStr.strip (PyStr.lower raw).

(** [filename] mentions [kw]: some part of it reads [kw] once lower-cased. *)
Definition mentions (kw filename : string) : Prop :=
  ∃ pre w post, filename = pre +:+ w +:+ post ∧ PyStr.lower w = kw.

Definition mentions_any (kws : list string) (filename : string) : Prop :=
  ∃ kw, kw ∈ kws ∧ mentions kw filename.

(** A pydantic stand-in for closed examples: the response is already one of
    the three records, or a value that no model accepts. *)
Inductive sample_json : Type :=
| JBill (b : BillDocument)
| JDischarge (d : DischargeSummaryDocument)
| JIDCard (c : IDCardDocument)
| JOther.

Definition sample_pydantic : Pydantic :=
  {| json := sample_json;
     BillDocument_init := λ j,
       match j with
       | JBill b => Ok b
       | _ => Err (OtherException "ValidationError" "validation error for BillDocument")
       end;
     DischargeSummaryDocument_init := λ j,
       match j with
       | JDischarge d => Ok d
       | _ => Err (OtherException "ValidationError"
                     "validation error for DischargeSummaryDocument")
       end;
     IDCardDocument_init := λ j,
       match j with
       | JIDCard c => Ok c
       | _ => Err (OtherException "ValidationError"
                     "validation error for IDCardDocument")
       end |}.

(** The program returns under [h] from [s]: it does not raise. *)
Definition returns {E S A} (h : handler E S) (p : Prog E A) (s : S) : Prop :=
  ∃ a s', run h p s = (Ok a, s').

(** A collaborator whose every call fails. *)
Definition failing_handler `{Pydantic} : handler Collab unit :=
  λ X ev s,
    match ev in Collab X return X * unit with
    | get_completion _ _ => (Err (OtherException "APIError" "unavailable"), s)
    | get_structured_output _ _ _ =>
        (Err (OtherException "APIError" "unavailable"), s)
    | extract_text _ => (Err (OtherException "APIError" "unavailable"), s)
    end.

(** An orchestrator whose bill agent lets an exception out. *)
Definition raising_orchestrator `{Pydantic} : ClaimOrchestrator :=
  {| bill_agent := λ _ _, Raise (OtherException "TypeError" "not subscriptable");
     discharge_agent := DischargeAgent_process;
     id_card_agent := IDCardAgent_process |}.

Definition upload_size (file : UploadFile) : Z :=
  Z.of_nat (length (content file)).

(** The name of the file ends in ".pdf", in any letter case. *)
Definition pdf_name (file : UploadFile) : bool :=
  PyStr.endswith (PyStr.lower (filename file)) ".pdf".

(** A file that the batch validation refuses. *)
Definition offending (file : UploadFile) : Prop :=
  pdf_name file = false ∨ upload_size file = 0 ∨ MAX_FILE_SIZE < upload_size file.

(** The message names the file: it quotes its filename. *)
Definition names_file (msg : string) (file : UploadFile) : Prop :=
  ∃ pre post, msg = pre +:+ "'" +:+ filename file +:+ "'" +:+ post.

(** The first offending file of the batch. *)
Definition first_offending (file : UploadFile) (files : list UploadFile) : Prop :=
  ∃ pre rest,
    files = pre ++ file :: rest ∧ (∀ f, f ∈ pre → ¬ offending f) ∧ offending file.

(** A bill, a discharge summary and an id card are among the documents:
    the types present include the three required ones. *)
Definition all_three_present (documents : list Document) : Prop :=
  (∃ b, Bill b ∈ documents)
  ∧ (∃ d, DischargeSummary d ∈ documents)
  ∧ (∃ c, IDCard c ∈ documents).

(** A class hierarchy for closed examples: the subclasses of [ValueError]
    that this code meets. *)
Definition sample_value_error_subclass (class_name : string) : bool :=
  existsb (String.eqb class_name)
    ["JSONDecodeError"; "ValidationError"; "UnicodeDecodeError"].

#[local] Instance offending_dec (file : UploadFile) : Decision (offending file).
Proof. unfold offending. apply _. Defined.

(** The five messages in the order of the checks that emit them. *)
Definition all_messages : list string :=
  [msg_name_mismatch; msg_date_order; msg_bill_amount;
   msg_policy_number; msg_member_id].

(** Two documents of the list carry names that differ once normalised. *)
Definition names_disagree (documents : list Document) : Prop :=
  ∃ d1 d2 n1 n2,
    d1 ∈ documents ∧ d2 ∈ documents
    ∧ contributes_name d1 n1 ∧ contributes_name d2 n2 ∧ n1 ≠ n2.

(** Every character of [s] is whitespace. *)
Fixpoint blank (s : string) : bool :=
  match s with
  | EmptyString => true
  | String c r => PyStr.is_space c && blank r
  end.

(** [raw] is [name] up to letter case and surrounding whitespace. *)
Definition name_variant (name raw : string) : Prop :=
  ∃ before core after,
    raw = before +:+ core +:+ after
    ∧ blank before = true ∧ blank after = true
    ∧ PyStr.lower core = PyStr.lower name.

(** All the keywords of the classifier. *)
Definition all_keywords : list string :=
  bill_keywords ++ discharge_keywords ++ id_keywords.

(** A collaborator that answers every completion with " Discharge_Summary"
    and a newline, and fails the other calls. *)
Definition padded_reply_handler `{Pydantic} : handler Collab unit :=
  λ X ev s,
    match ev in Collab X return X * unit with
    | get_completion _ _ =>
        (Ok (Some (" Discharge_Summary" +:+ String "010" EmptyString)), s)
    | get_structured_output _ _ _ =>
        (Err (OtherException "APIError" "unavailable"), s)
    | extract_text _ => (Err (OtherException "APIError" "unavailable"), s)
    end.

(** A text of [n] letters. *)
Definition filler (n : nat) : string := string_of_list_ascii (repeat "a"%char n).

(** The classification of one item of step 3. *)
Definition item_classification (item : FileInfo * string * string) : string :=
  snd (fst item).

(** The events of the endpoint when everything succeeds: the temporary
    directory, one write per upload in order, the orchestrator. *)
Definition upload_events (temp_dir : string) (files : list UploadFile)
    (file_paths : list FileInfo) : list (some_event Endpoint) :=
  Event TemporaryDirectory
  :: ((λ f : UploadFile, Event (write_upload temp_dir (filename f) (content f)))
        <$> files)
  ++ [Event (orchestrator_process_claim file_paths)].

(** A system in which the temporary directory is "/tmp/claim", each upload
    is written under it, and the orchestrator raises a [ValueError]. *)
Definition orchestrator_value_error : handler Endpoint unit :=
  λ X ev s,
    match ev in Endpoint X return X * unit with
    | TemporaryDirectory => (Ok "/tmp/claim", s)
    | write_upload temp_dir name _ => (Ok (temp_dir +:+ "/" +:+ name), s)
    | orchestrator_process_claim _ => (Err (ValueError "bad value"), s)
    end.

(** The same system with an orchestrator that raises a [JSONDecodeError],
    a class derived from [ValueError]. *)
Definition orchestrator_json_error : handler Endpoint unit :=
  λ X ev s,
    match ev in Endpoint X return X * unit with
    | TemporaryDirectory => (Ok "/tmp/claim", s)
    | write_upload temp_dir name _ => (Ok (temp_dir +:+ "/" +:+ name), s)
    | orchestrator_process_claim _ =>
        (Err (OtherException "JSONDecodeError" "Expecting value"), s)
    end.

(** A response for closed examples: the one of a claim without documents. *)
Definition sample_response : ClaimProcessingResponse :=
  {| documents := [];
     validation := validate [];
     claim_decision := _make_decision [] (validate []);
     total_files_processed := 1;
     document_types_found := [];
     validation_status := "passed" |}.

(** A system in which every call of the endpoint succeeds. *)
Definition succeeding_system : handler Endpoint unit :=
  λ X ev s,
    match ev in Endpoint X return X * unit with
    | TemporaryDirectory => (Ok "/tmp/claim", s)
    | write_upload temp_dir name _ => (Ok (temp_dir +:+ "/" +:+ name), s)
    | orchestrator_process_claim _ => (Ok sample_response, s)
    end.

(** Library stand-ins for closed examples: a decoder that accepts only the
    text "{}" and a suffix that is ".pdf" for the names that end so. *)
Definition sample_json_loads (t : string) : string + sample_json :=
  if String.eqb t "{}" then inr JOther
  else inl "Expecting value: line 1 column 1 (char 0)".

Definition sample_suffix (p : string) : string :=
  if PyStr.endswith (PyStr.lower p) ".pdf" then ".pdf" else EmptyString.

(** A system in which files exist and hold one byte, and the model answers
    every request with the given text. *)
Definition model_answers (text : option string) : handler Sys unit :=
  λ X ev s,
    match ev in Sys X return X * unit with
    | generate_content _ _ _ => (Ok text, s)
    | path_exists _ => (true, s)
    | read_bytes _ => (Ok ["x"%byte], s)
    end.

(** A system without any file. *)
Definition no_files : handler Sys unit :=
  λ X ev s,
    match ev in Sys X return X * unit with
    | generate_content _ _ _ => (Ok (Some "text"), s)
    | path_exists _ => (false, s)
    | read_bytes _ =>
        (Err (OtherException "FileNotFoundError" "No such file or directory"), s)
    end.

(** The request of [get_structured_output] to the model. *)
Definition structured_request (prompt system_prompt : string) (schema : Schema)
  : Sys (result (option string)) :=
  generate_content gemini_model
    (TextContents (system_prompt +:+ nl +:+ nl +:+ prompt +:+ nl +:+ nl
                   +:+ "IMPORTANT: Return ONLY valid JSON. No markdown."))
    {| temperature := FReal 0.0;
       response_mime_type := Some "application/json";
       response_schema := Some schema |}.

(** * Properties *)

(** ** Sets of document types *)

Lemma elem_of_doc_types (t : string) (documents : list Document) :
  t ∈ doc_types documents ↔ ∃ d, d ∈ documents ∧ doc_type d = t.
Proof.
  unfold doc_types. rewrite elem_of_list_to_set, list_elem_of_fmap.
  split; intros (d & ? & ?); exists d; auto.
Qed.

Lemma elem_of_required_types (t : string) :
  t ∈ required_types ↔ t = "bill" ∨ t = "discharge_summary" ∨ t = "id_card".
Proof.
  unfold required_types.
  rewrite !elem_of_union, !elem_of_singleton. tauto.
Qed.

Lemma missing_documents_validate (documents : list Document) :
  missing_documents (validate documents)
  = elements (required_types ∖ doc_types documents).
Proof. reflexivity. Qed.

Lemma missing_empty_superset (documents : list Document) :
  missing_documents (validate documents) = [] →
  required_types ⊆ doc_types documents.
Proof.
  rewrite missing_documents_validate. intros Hnil%elements_empty_inv.
  intros t Ht. destruct (decide (t ∈ doc_types documents)) as [|Hn]; [done|].
  exfalso. apply (not_elem_of_empty (C:=gset string) t).
  rewrite <- (leibniz_equiv _ _ Hnil). set_solver.
Qed.

Lemma superset_all_three (documents : list Document) :
  required_types ⊆ doc_types documents ↔ all_three_present documents.
Proof.
  unfold all_three_present. split.
  - intros Hsub.
    assert (Hty : ∀ t, t ∈ required_types → ∃ d, d ∈ documents ∧ doc_type d = t).
    { intros t Ht. by apply elem_of_doc_types, Hsub. }
    split; [|split].
    + destruct (Hty "bill") as ([b| |] & Hin & Heq);
        [apply elem_of_required_types; auto| |discriminate..]. by exists b.
    + destruct (Hty "discharge_summary") as ([|d|] & Hin & Heq);
        [apply elem_of_required_types; auto|discriminate| |discriminate].
      by exists d.
    + destruct (Hty "id_card") as ([| |c] & Hin & Heq);
        [apply elem_of_required_types; auto|discriminate..|]. by exists c.
  - intros ((b & Hb) & (d & Hd) & (c & Hc)) t Ht.
    apply elem_of_doc_types. apply elem_of_required_types in Ht.
    destruct Ht as [->|[->| ->]];
      [by exists (Bill b)|by exists (DischargeSummary d)|by exists (IDCard c)].
Qed.

(** ** The decision policy *)

(** C1. [_make_decision] is the ordered decision table, the first rule that
    applies deciding: (1) some document missing: rejected, the reason lists
    the missing types, confidence 1.0; (2) else some discrepancy:
    pending_review, the reason holds the first two discrepancies at most,
    confidence 0.6; (3) else the types present include the three required
    ones, that is, a bill, a discharge summary and an id card are among the
    documents: approved, confidence 0.95; (4) else rejected with
    "Incomplete documentation", confidence 0.8. *)
Theorem make_decision_decision_table
    (documents : list Document) (validation : ValidationResult) :
  let d := _make_decision documents validation in
  (missing_documents validation ≠ [] →
   d = {| status := rejected;
          reason := "Missing required documents: "
                    +:+ PyStr.join ", " (missing_documents validation);
          confidence_score := Some (FReal 1.0) |})
  ∧ (missing_documents validation = [] →
     discrepancies validation ≠ [] →
     d = {| status := pending_review;
            reason := "Data discrepancies found - manual review required: "
                      +:+ PyStr.join "; " (take 2 (discrepancies validation));
            confidence_score := Some (FReal 0.6) |}
     ∧ (length (take 2 (discrepancies validation)) ≤ 2)%nat
     ∧ take 2 (discrepancies validation) `prefix_of` discrepancies validation)
  ∧ (missing_documents validation = [] →
     discrepancies validation = [] →
     all_three_present documents →
     d = {| status := approved;
            reason := "All required documents present and data is consistent";
            confidence_score := Some (FReal 0.95) |})
  ∧ (missing_documents validation = [] →
     discrepancies validation = [] →
     ¬ all_three_present documents →
     d = {| status := rejected;
            reason := "Incomplete documentation";
            confidence_score := Some (FReal 0.8) |}).
Proof.
  intros d. subst d. unfold _make_decision.
  destruct validation as [missing disc]; simpl.
  split; [|split; [|split]].
  - intros Hm. destruct missing; [done|reflexivity].
  - intros -> Hd. split; [|split].
    + destruct disc; [done|reflexivity].
    + rewrite length_take. lia.
    + apply prefix_take.
  - intros -> -> Hsup%superset_all_three. by rewrite bool_decide_eq_true_2.
  - intros -> -> Hsup. rewrite bool_decide_eq_false_2; [done|].
    by rewrite superset_all_three.
Qed.

(** Witness of C1: each of the four rules at a concrete input; the three
    sample documents without discrepancy are approved, and the same
    validation without the documents falls to the last rule. *)
Lemma make_decision_decision_table_witness :
  status (_make_decision [sample_bill] (mkValidation ["id_card"] ["x"]))
  = rejected
  ∧ reason (_make_decision [sample_bill; sample_discharge; sample_id_card]
              (mkValidation [] ["x"; "y"; "z"]))
    = "Data discrepancies found - manual review required: x; y"
  ∧ _make_decision [sample_bill; sample_discharge; sample_id_card]
      (mkValidation [] [])
    = {| status := approved;
         reason := "All required documents present and data is consistent";
         confidence_score := Some (FReal 0.95) |}
  ∧ _make_decision [sample_bill; sample_discharge] (mkValidation [] [])
    = fallback_decision.
Proof.
  pose proof (make_decision_decision_table [sample_bill]
                (mkValidation ["id_card"] ["x"])) as (H1 & _).
  pose proof (make_decision_decision_table
                [sample_bill; sample_discharge; sample_id_card]
                (mkValidation [] ["x"; "y"; "z"])) as (_ & H2 & _).
  pose proof (make_decision_decision_table
                [sample_bill; sample_discharge; sample_id_card]
                (mkValidation [] [])) as (_ & _ & H3 & _).
  pose proof (make_decision_decision_table [sample_bill; sample_discharge]
                (mkValidation [] [])) as (_ & _ & _ & H4).
  cbn [missing_documents discrepancies] in H1, H2, H3, H4.
  split; [|split; [|split]].
  - rewrite H1; [reflexivity | discriminate].
  - destruct H2 as (-> & _); [reflexivity | discriminate | reflexivity].
  - apply H3; [reflexivity | reflexivity |].
    split; [|split].
    + eexists. by left.
    + eexists. right. by left.
    + eexists. right. right. by left.
  - apply H4; [reflexivity | reflexivity |].
    intros (_ & _ & c & Hc).
    apply elem_of_cons in Hc as [Hc|Hc]; [discriminate Hc|].
    apply elem_of_cons in Hc as [Hc|Hc]; [discriminate Hc|].
    by apply not_elem_of_nil in Hc.
Defined.

(** ** Completeness *)



(** C3. On the validator's own result the fallback rule never decides: no
    missing document means that the types present include the three required
    ones, so that [_make_decision] stops at one of the first three rules. *)
Theorem fallback_unreachable_after_validate (ds : list Document) :
  (missing_documents (validate ds) = [] → required_types ⊆ doc_types ds)
  ∧ _make_decision ds (validate ds) ≠ fallback_decision
  ∧ reason (_make_decision ds (validate ds)) ≠ "Incomplete documentation".
Proof.
  split; [apply missing_empty_superset|].
  pose proof (missing_empty_superset ds) as Hsup.
  unfold _make_decision, fallback_decision.
  destruct (missing_documents (validate ds)) as [|m ms].
  - destruct (discrepancies (validate ds)).
    + rewrite bool_decide_eq_true_2 by auto. split; discriminate.
    + split; discriminate.
  - split; discriminate.
Qed.

(** Witness of C3: with the three documents nothing is missing, and the
    decision is not the fallback one. *)
Lemma fallback_unreachable_after_validate_witness :
  required_types ⊆ doc_types [sample_bill; sample_discharge; sample_id_card]
  ∧ _make_decision [sample_bill; sample_discharge; sample_id_card]
      (validate [sample_bill; sample_discharge; sample_id_card])
    ≠ fallback_decision.
Proof.
  destruct (fallback_unreachable_after_validate
              [sample_bill; sample_discharge; sample_id_card])
    as (Hsup & Hne & _).
  split; [|exact Hne]. apply Hsup. vm_compute. reflexivity.
Defined.

(** ** The validator's checks *)

Lemma next_of_type_first (d : Document) (documents : list Document) :
  first_of_type d documents →
  next_of_type (doc_type d) documents = Some d.
Proof.
  intros (pre & rest & -> & Hpre). unfold next_of_type.
  induction pre as [|x pre IH]; simpl.
  - by rewrite String.eqb_refl.
  - destruct (String.eqb_spec (doc_type x) (doc_type d)) as [Heq|_].
    + exfalso. apply (Hpre x); [left|exact Heq].
    + apply IH. intros y Hy. apply Hpre. by right.
Qed.

Lemma next_of_type_Some (ty : string) (d : Document) (documents : list Document) :
  next_of_type ty documents = Some d →
  doc_type d = ty ∧ first_of_type d documents.
Proof.
  unfold next_of_type. induction documents as [|x l IH]; simpl; [done|].
  destruct (String.eqb_spec (doc_type x) ty) as [Heq|Hne].
  - intros [= ->]. split; [done|]. exists [], l. split; [done|].
    intros y Hy. by apply not_elem_of_nil in Hy.
  - intros Hf. destruct (IH Hf) as (Hty & pre & rest & -> & Hpre).
    split; [done|]. exists (x :: pre), rest. split; [done|].
    intros y [->|Hy]%elem_of_cons; [congruence|by apply Hpre].
Qed.

Lemma elem_of_discrepancies (m : string) (documents : list Document) :
  m ∈ discrepancies (validate documents)
  ↔ m ∈ check_names documents ∨ m ∈ check_dates documents
    ∨ m ∈ check_bill documents ∨ m ∈ check_id_card documents.
Proof. unfold validate; simpl. rewrite !elem_of_app. tauto. Qed.

Lemma check_names_only (m : string) (documents : list Document) :
  m ∈ check_names documents → m = msg_name_mismatch.
Proof.
  unfold check_names.
  repeat case_match; intros Hm;
    solve [ by apply not_elem_of_nil in Hm | by apply list_elem_of_singleton in Hm ].
Qed.

Lemma check_dates_only (m : string) (documents : list Document) :
  m ∈ check_dates documents → m = msg_date_order.
Proof.
  unfold check_dates.
  repeat case_match; intros Hm;
    solve [ by apply not_elem_of_nil in Hm | by apply list_elem_of_singleton in Hm ].
Qed.

Lemma check_bill_only (m : string) (documents : list Document) :
  m ∈ check_bill documents → m = msg_bill_amount.
Proof.
  unfold check_bill.
  repeat case_match; intros Hm;
    solve [ by apply not_elem_of_nil in Hm | by apply list_elem_of_singleton in Hm ].
Qed.

Lemma check_id_card_only (m : string) (documents : list Document) :
  m ∈ check_id_card documents → m = msg_policy_number ∨ m = msg_member_id.
Proof.
  unfold check_id_card.
  destruct (next_of_type "id_card" documents) as [[| |c]|];
    try (intros Hm; by apply not_elem_of_nil in Hm).
  rewrite elem_of_app.
  intros [Hm|Hm]; [left|right]; revert Hm; case_match; intros Hm;
    solve [ by apply not_elem_of_nil in Hm | by apply list_elem_of_singleton in Hm ].
Qed.

(** The five messages are pairwise distinct, so that each one in the list
    comes from its own check. *)
Ltac foreign_message :=
  match goal with
  | H : _ ∈ check_names _ |- _ => apply check_names_only in H; discriminate H
  | H : _ ∈ check_dates _ |- _ => apply check_dates_only in H; discriminate H
  | H : _ ∈ check_bill _ |- _ => apply check_bill_only in H; discriminate H
  | H : _ ∈ check_id_card _ |- _ =>
      apply check_id_card_only in H; destruct H as [H|H]; discriminate H
  end.

Lemma date_message_from_check (documents : list Document) :
  msg_date_order ∈ discrepancies (validate documents)
  ↔ msg_date_order ∈ check_dates documents.
Proof.
  rewrite elem_of_discrepancies. split; [|tauto].
  intros [H|[H|[H|H]]]; [foreign_message | exact H | foreign_message..].
Qed.

Lemma bill_message_from_check (documents : list Document) :
  msg_bill_amount ∈ discrepancies (validate documents)
  ↔ msg_bill_amount ∈ check_bill documents.
Proof.
  rewrite elem_of_discrepancies. split; [|tauto].
  intros [H|[H|[H|H]]]; [foreign_message.. | exact H | foreign_message].
Qed.

Lemma name_message_from_check (documents : list Document) :
  msg_name_mismatch ∈ discrepancies (validate documents)
  ↔ msg_name_mismatch ∈ check_names documents.
Proof.
  rewrite elem_of_discrepancies. split; [|tauto].
  intros [H|[H|[H|H]]]; [exact H | foreign_message..].
Qed.

Lemma id_message_from_check (m : string) (documents : list Document) :
  m = msg_policy_number ∨ m = msg_member_id →
  m ∈ discrepancies (validate documents) ↔ m ∈ check_id_card documents.
Proof.
  intros Hm. rewrite elem_of_discrepancies. split; [|tauto].
  intros [H|[H|[H|H]]]; [destruct Hm as [-> | ->]; foreign_message .. | exact H].
Qed.

Lemma check_dates_first (d : DischargeSummaryDocument) (documents : list Document) :
  first_of_type (DischargeSummary d) documents →
  check_dates documents =
    match Strptime.strptime (admission_date d),
          Strptime.strptime (discharge_date d) with
    | Some admission, Some discharge =>
        if Strptime.date_ltb discharge admission then [msg_date_order] else []
    | _, _ => []
    end.
Proof.
  intros Hfirst%next_of_type_first. simpl in Hfirst.
  unfold check_dates. rewrite Hfirst.
  destruct (Strptime.strptime (admission_date d)); [|reflexivity].
  destruct (Strptime.strptime (discharge_date d)); reflexivity.
Qed.

Lemma check_bill_first (b : BillDocument) (documents : list Document) :
  first_of_type (Bill b) documents →
  check_bill documents =
    if float_le0 (total_amount b) then [msg_bill_amount] else [].
Proof.
  intros Hfirst%next_of_type_first. simpl in Hfirst.
  unfold check_bill. by rewrite Hfirst.
Qed.

Lemma check_id_card_first (c : IDCardDocument) (documents : list Document) :
  first_of_type (IDCard c) documents →
  check_id_card documents =
    (if negb (PyStr.truthy (policy_number c))
        || String.eqb (policy_number c) "UNKNOWN"
     then [msg_policy_number] else [])
    ++ (if negb (PyStr.truthy (member_id c))
           || String.eqb (member_id c) "UNKNOWN"
        then [msg_member_id] else []).
Proof.
  intros Hfirst%next_of_type_first. simpl in Hfirst.
  unfold check_id_card. by rewrite Hfirst.
Qed.

Lemma float_gt0_not_le0 (x : float) : float_gt0 x = true → float_le0 x = false.
Proof.
  destruct x as [|[]|q]; simpl; try done. by intros ->%negb_true_iff.
Qed.

(** The test of a field of the id card: empty or the placeholder. *)
Lemma invalid_field_spec (s : string) :
  (negb (PyStr.truthy s) || String.eqb s "UNKNOWN") = true
  ↔ s = EmptyString ∨ s = "UNKNOWN".
Proof.
  rewrite orb_true_iff, negb_true_iff, String.eqb_eq.
  destruct s; simpl; split; intros [?|?]; auto; discriminate.
Qed.

(** C6. With the discharge summary that the validator looks at, the first
    one of the list: when both of its dates parse, the message "Discharge
    date is before admission date" is among the discrepancies exactly when
    the discharge date is strictly before the admission date; when one of
    them does not parse, the check adds nothing, and [validate] still
    returns its result. *)
Theorem date_order_discrepancy
    (documents : list Document) (d : DischargeSummaryDocument) :
  first_of_type (DischargeSummary d) documents →
  (∀ admission discharge,
     Strptime.strptime (admission_date d) = Some admission →
     Strptime.strptime (discharge_date d) = Some discharge →
     (msg_date_order ∈ discrepancies (validate documents)
      ↔ Strptime.date_ltb discharge admission = true))
  ∧ (Strptime.strptime (admission_date d) = None
     ∨ Strptime.strptime (discharge_date d) = None →
     check_dates documents = []
     ∧ msg_date_order ∉ discrepancies (validate documents)).
Proof.
  intros Hfirst. pose proof (check_dates_first d documents Hfirst) as Hc.
  split.
  - intros admission discharge Ha Hd.
    rewrite date_message_from_check, Hc, Ha, Hd.
    destruct (Strptime.date_ltb discharge admission).
    + split; [done|]. intros _. by apply list_elem_of_singleton.
    + split; [|done]. intros Hm. by apply not_elem_of_nil in Hm.
  - intros Hnone. assert (Hnil : check_dates documents = []).
    { rewrite Hc. destruct Hnone as [-> | ->]; [done|].
      by destruct (Strptime.strptime (admission_date d)). }
    split; [exact Hnil|].
    rewrite date_message_from_check, Hnil. apply not_elem_of_nil.
Qed.

Lemma first_of_type_head (d : Document) (rest : list Document) :
  first_of_type d (d :: rest).
Proof.
  exists [], rest. split; [done|]. intros x Hx. by apply not_elem_of_nil in Hx.
Qed.

(** Witness of C6: discharged on 2024-01-01 after an admission on
    2024-01-05 is reported, discharged on 2024-01-10 is not, and a date
    that does not parse is passed over. *)
Lemma date_order_discrepancy_witness :
  msg_date_order
    ∈ discrepancies (validate [discharge_with_dates "2024-01-05" "2024-01-01"])
  ∧ (msg_date_order
     ∉ discrepancies (validate [discharge_with_dates "2024-01-05" "2024-01-10"]))
  ∧ (msg_date_order
     ∉ discrepancies (validate [discharge_with_dates "2024-01-05" "10 Jan 2024"])).
Proof.
  split; [|split].
  - eapply (proj1 (date_order_discrepancy _ _ (first_of_type_head _ [])));
      [vm_compute; reflexivity..].
  - intros Hm.
    eapply (proj1 (date_order_discrepancy _ _ (first_of_type_head _ []))) in Hm;
      [|vm_compute; reflexivity..].
    vm_compute in Hm. discriminate Hm.
  - eapply (proj2 (date_order_discrepancy _ _ (first_of_type_head _ []))).
    right. vm_compute. reflexivity.
Defined.

(** C7. With the bill that the validator looks at, the first one of the
    list: "Invalid bill amount (must be positive)" is among the
    discrepancies when its total amount is at most 0, and is not when the
    amount is positive. *)
Theorem bill_amount_discrepancy
    (documents : list Document) (b : BillDocument) :
  first_of_type (Bill b) documents →
  (float_le0 (total_amount b) = true →
   msg_bill_amount ∈ discrepancies (validate documents))
  ∧ (float_gt0 (total_amount b) = true →
     msg_bill_amount ∉ discrepancies (validate documents)).
Proof.
  intros Hfirst. rewrite bill_message_from_check, (check_bill_first b) by done.
  split.
  - intros ->. by apply list_elem_of_singleton.
  - intros ->%float_gt0_not_le0. apply not_elem_of_nil.
Qed.

(** Witness of C7: amounts 0 and -5 are reported, 150.0 is not. *)
Lemma bill_amount_discrepancy_witness :
  msg_bill_amount ∈ discrepancies (validate [bill_with_amount (FReal 0)])
  ∧ msg_bill_amount ∈ discrepancies (validate [bill_with_amount (FReal (-5))])
  ∧ msg_bill_amount ∉ discrepancies (validate [bill_with_amount (FReal 150.0)]).
Proof.
  split; [|split].
  - apply (proj1 (bill_amount_discrepancy _ _ (first_of_type_head _ []))).
    vm_compute. reflexivity.
  - apply (proj1 (bill_amount_discrepancy _ _ (first_of_type_head _ []))).
    vm_compute. reflexivity.
  - apply (proj2 (bill_amount_discrepancy _ _ (first_of_type_head _ []))).
    vm_compute. reflexivity.
Defined.

Lemma invalid_field_messages (policy_invalid member_invalid : bool) :
  let l := (if policy_invalid then [msg_policy_number] else [])
           ++ (if member_invalid then [msg_member_id] else []) in
  (msg_policy_number ∈ l ↔ policy_invalid = true)
  ∧ (msg_member_id ∈ l ↔ member_invalid = true).
Proof.
  intros l. subst l. rewrite !elem_of_app.
  destruct policy_invalid, member_invalid;
    rewrite ?elem_of_cons, ?elem_of_nil;
    intuition discriminate.
Qed.

(** C8. With the id card that the validator looks at, the first one of the
    list: "Missing or invalid policy number" is among the discrepancies
    exactly when the policy number is empty or "UNKNOWN", and "Missing or
    invalid member ID" exactly when the member id is empty or "UNKNOWN";
    neither test looks at the other field. *)
Theorem id_card_discrepancies
    (documents : list Document) (c : IDCardDocument) :
  first_of_type (IDCard c) documents →
  (msg_policy_number ∈ discrepancies (validate documents)
   ↔ policy_number c = EmptyString ∨ policy_number c = "UNKNOWN")
  ∧ (msg_member_id ∈ discrepancies (validate documents)
     ↔ member_id c = EmptyString ∨ member_id c = "UNKNOWN").
Proof.
  intros Hfirst.
  rewrite !id_message_from_check by auto.
  rewrite (check_id_card_first c) by done.
  rewrite <- !invalid_field_spec.
  apply invalid_field_messages.
Qed.

(** Witness of C8: the placeholder policy number is reported without the
    member id being so; valid fields report nothing. *)
Lemma id_card_discrepancies_witness :
  (msg_policy_number ∈ discrepancies (validate [id_card_with "UNKNOWN" "MEM456"])
   ∧ msg_member_id ∉ discrepancies (validate [id_card_with "UNKNOWN" "MEM456"]))
  ∧ ((msg_policy_number ∉ discrepancies (validate [id_card_with "POL123" "MEM456"]))
     ∧ msg_member_id ∉ discrepancies (validate [id_card_with "POL123" "MEM456"])).
Proof.
  pose proof (id_card_discrepancies _ _
                (first_of_type_head (id_card_with "UNKNOWN" "MEM456") []))
    as [Hp1 Hm1].
  pose proof (id_card_discrepancies _ _
                (first_of_type_head (id_card_with "POL123" "MEM456") []))
    as [Hp2 Hm2].
  simpl in Hp1, Hm1, Hp2, Hm2.
  split; split.
  - apply Hp1. by right.
  - intros [?|?]%Hm1; discriminate.
  - intros [?|?]%Hp2; discriminate.
  - intros [?|?]%Hm2; discriminate.
Defined.

(** ** Which documents each check reads *)

Lemma truthy_spec (s : string) : PyStr.truthy s = true ↔ s ≠ EmptyString.
Proof. destruct s; simpl; split; intros; done. Qed.

Lemma elem_of_patient_names (n : string) (documents : list Document) :
  n ∈ (snd <$> patient_names documents)
  ↔ ∃ d, d ∈ documents ∧ contributes_name d n.
Proof.
  induction documents as [|doc rest IH]; simpl.
  - rewrite elem_of_nil. split; [done|].
    intros (d & Hd & _). by apply not_elem_of_nil in Hd.
  - assert (Hskip : (¬ ∃ m, contributes_name doc m) →
                    n ∈ (snd <$> patient_names rest)
                    ↔ ∃ d, d ∈ doc :: rest ∧ contributes_name d n).
    { intros Hno. rewrite IH. split.
      - intros (d & Hd & Hc). exists d. split; [by right|done].
      - intros (d & [->|Hd]%elem_of_cons & Hc).
        + exfalso. apply Hno. by exists n.
        + by exists d. }
    destruct (patient_name doc) as [raw|] eqn:Hraw.
    + destruct (PyStr.truthy raw) eqn:Htr.
      * simpl. rewrite elem_of_cons, IH. split.
        -- intros [-> | (d & Hd & Hc)].
           ++ exists doc. split; [by left|]. exists raw.
              split; [done|]. split; [by apply truthy_spec|done].
           ++ exists d. split; [by right|done].
        -- intros (d & [->|Hd]%elem_of_cons & Hc).
           ++ left. destruct Hc as (raw' & Hraw' & _ & ->). congruence.
           ++ right. by exists d.
      * apply Hskip. intros (m & raw' & Hraw' & Hne & _).
        assert (raw' = raw) as -> by congruence.
        apply truthy_spec in Hne. congruence.
    + apply Hskip. intros (m & raw' & Hraw' & _). congruence.
Qed.

Lemma size_gt_1_two_elements (X : gset string) :
  (1 < size X)%nat ↔ ∃ x y, x ∈ X ∧ y ∈ X ∧ x ≠ y.
Proof.
  split.
  - intros Hsize.
    destruct (size_pos_elem_of X) as [x Hx]; [lia|].
    destruct (size_pos_elem_of (X ∖ {[ x ]})) as [y Hy].
    { rewrite size_difference by (by apply singleton_subseteq_l).
      rewrite size_singleton. lia. }
    apply elem_of_difference in Hy as [Hy Hne].
    rewrite elem_of_singleton in Hne.
    exists x, y. split; [done|]. split; [done|]. congruence.
  - intros (x & y & Hx & Hy & Hne).
    assert (Hsub : ({[ x ]} ∪ {[ y ]} : gset string) ⊆ X).
    { apply union_subseteq. split; by apply singleton_subseteq_l. }
    apply subseteq_size in Hsub.
    rewrite size_union in Hsub by (by apply disjoint_singleton_l, not_elem_of_singleton).
    rewrite !size_singleton in Hsub. lia.
Qed.

Lemma check_names_spec (documents : list Document) :
  msg_name_mismatch ∈ check_names documents
  ↔ ∃ d1 d2 n1 n2,
      d1 ∈ documents ∧ d2 ∈ documents
      ∧ contributes_name d1 n1 ∧ contributes_name d2 n2 ∧ n1 ≠ n2.
Proof.
  assert (Hset : (1 < size (list_to_set (snd <$> patient_names documents)
                             : gset string))%nat
                 ↔ ∃ d1 d2 n1 n2,
                     d1 ∈ documents ∧ d2 ∈ documents
                     ∧ contributes_name d1 n1 ∧ contributes_name d2 n2
                     ∧ n1 ≠ n2).
  { rewrite size_gt_1_two_elements. split.
    - intros (x & y & Hx & Hy & Hne).
      apply elem_of_list_to_set, elem_of_patient_names in Hx as (d1 & ? & ?).
      apply elem_of_list_to_set, elem_of_patient_names in Hy as (d2 & ? & ?).
      by exists d1, d2, x, y.
    - intros (d1 & d2 & n1 & n2 & H1 & H2 & Hc1 & Hc2 & Hne).
      exists n1, n2.
      split; [|split; [|done]];
        apply elem_of_list_to_set, elem_of_patient_names; eauto. }
  rewrite <- Hset. unfold check_names.
  destruct (patient_names documents) as [|a [|b l]] eqn:Hnames.
  - assert ((1 <? length (@nil (string * string)))%nat = false) as ->
      by reflexivity.
    rewrite elem_of_nil, fmap_nil, list_to_set_nil, size_empty. lia.
  - assert ((1 <? length [a])%nat = false) as -> by reflexivity.
    rewrite elem_of_nil, fmap_cons, fmap_nil, list_to_set_cons, list_to_set_nil.
    rewrite union_empty_r_L, size_singleton. lia.
  - assert ((1 <? length (a :: b :: l))%nat = true) as -> by reflexivity.
    destruct (1 <? size (list_to_set (snd <$> a :: b :: l) : gset string))%nat
      eqn:Hlt.
    + apply Nat.ltb_lt in Hlt. rewrite list_elem_of_singleton. tauto.
    + apply Nat.ltb_ge in Hlt. rewrite elem_of_nil. split; [done|lia].
Qed.

(** C10. The checks of dates, bill amount and id card read only the first
    document of their type, whatever follows it in the list, while the name
    check compares the names of all documents. *)
Theorem checks_read_first_of_type :
  (∀ (pre rest : list Document) (b : BillDocument),
     (∀ x, x ∈ pre → doc_type x ≠ "bill") →
     msg_bill_amount ∈ discrepancies (validate (pre ++ Bill b :: rest))
     ↔ float_le0 (total_amount b) = true)
  ∧ (∀ (pre rest : list Document) (d : DischargeSummaryDocument),
       (∀ x, x ∈ pre → doc_type x ≠ "discharge_summary") →
       msg_date_order
         ∈ discrepancies (validate (pre ++ DischargeSummary d :: rest))
       ↔ ∃ admission discharge,
           Strptime.strptime (admission_date d) = Some admission
           ∧ Strptime.strptime (discharge_date d) = Some discharge
           ∧ Strptime.date_ltb discharge admission = true)
  ∧ (∀ (pre rest : list Document) (c : IDCardDocument),
       (∀ x, x ∈ pre → doc_type x ≠ "id_card") →
       (msg_policy_number ∈ discrepancies (validate (pre ++ IDCard c :: rest))
        ↔ policy_number c = EmptyString ∨ policy_number c = "UNKNOWN")
       ∧ (msg_member_id ∈ discrepancies (validate (pre ++ IDCard c :: rest))
          ↔ member_id c = EmptyString ∨ member_id c = "UNKNOWN"))
  ∧ (∀ documents : list Document,
       msg_name_mismatch ∈ discrepancies (validate documents)
       ↔ ∃ d1 d2 n1 n2,
           d1 ∈ documents ∧ d2 ∈ documents
           ∧ contributes_name d1 n1 ∧ contributes_name d2 n2 ∧ n1 ≠ n2).
Proof.
  split; [|split; [|split]].
  - intros pre rest b Hpre.
    assert (Hfirst : first_of_type (Bill b) (pre ++ Bill b :: rest))
      by (by exists pre, rest).
    rewrite bill_message_from_check, (check_bill_first b) by done.
    destruct (float_le0 (total_amount b)).
    + rewrite list_elem_of_singleton. tauto.
    + rewrite elem_of_nil. split; [done|discriminate].
  - intros pre rest d Hpre.
    assert (Hfirst : first_of_type (DischargeSummary d)
                       (pre ++ DischargeSummary d :: rest))
      by (by exists pre, rest).
    rewrite date_message_from_check, (check_dates_first d) by done.
    destruct (Strptime.strptime (admission_date d)) as [admission|].
    + destruct (Strptime.strptime (discharge_date d)) as [discharge|].
      * destruct (Strptime.date_ltb discharge admission) eqn:Hlt.
        -- rewrite list_elem_of_singleton. split; [|done].
           intros _. by exists admission, discharge.
        -- rewrite elem_of_nil. split; [done|].
           intros (a & d' & [= <-] & [= <-] & Hlt'). congruence.
      * rewrite elem_of_nil. split; [done|]. by intros (? & ? & _ & ? & _).
    + rewrite elem_of_nil. split; [done|]. by intros (? & ? & ? & _).
  - intros pre rest c Hpre.
    assert (Hfirst : first_of_type (IDCard c) (pre ++ IDCard c :: rest))
      by (by exists pre, rest).
    rewrite !id_message_from_check by auto.
    rewrite (check_id_card_first c) by done.
    rewrite <- !invalid_field_spec.
    apply invalid_field_messages.
  - intros documents. rewrite name_message_from_check. apply check_names_spec.
Qed.

(** Witness of C10: a second bill of amount 0 after a first one of 150.0
    is not reported, and a name that differs in a second bill is. *)
Lemma checks_read_first_of_type_witness :
  (msg_bill_amount
     ∉ discrepancies (validate [bill_with_amount (FReal 150.0);
                                bill_with_amount (FReal 0)]))
  ∧ msg_name_mismatch
      ∈ discrepancies
          (validate [sample_bill;
                     Bill {| hospital_name := "City Hospital";
                             total_amount := FReal 150.0;
                             date_of_service := "2024-01-05";
                             bill_patient_name := Some "Jane Roe";
                             bill_items := None |}]).
Proof.
  destruct checks_read_first_of_type as (Hbill & _ & _ & Hnames).
  split.
  - intros Hm.
    apply (Hbill [] [bill_with_amount (FReal 0)]) in Hm.
    + vm_compute in Hm. discriminate Hm.
    + intros x Hx. by apply not_elem_of_nil in Hx.
  - apply Hnames.
    eexists _, _, "john doe", "jane roe".
    split; [by left|]. split; [right; by left|].
    split; [|split].
    + exists "John Doe". split; [reflexivity|]. split; [discriminate|].
      vm_compute. reflexivity.
    + exists "Jane Roe". split; [reflexivity|]. split; [discriminate|].
      vm_compute. reflexivity.
    + discriminate.
Defined.

(** ** Strings *)

Lemma str_app_nil (s : string) : EmptyString +:+ s = s.
Proof. reflexivity. Qed.

Lemma str_app_cons (c : ascii) (a b : string) :
  String c a +:+ b = String c (a +:+ b).
Proof. reflexivity. Qed.

Lemma lower_app (a b : string) :
  PyStr.lower (a +:+ b) = PyStr.lower a +:+ PyStr.lower b.
Proof.
  induction a as [|c a IH]; [reflexivity|].
  rewrite str_app_cons. simpl. by rewrite IH, str_app_cons.
Qed.

Lemma lower_split (s a b : string) :
  PyStr.lower s = a +:+ b →
  ∃ s1 s2, s = s1 +:+ s2 ∧ PyStr.lower s1 = a ∧ PyStr.lower s2 = b.
Proof.
  revert s. induction a as [|c a IH]; intros s Hs.
  - exists EmptyString, s. by rewrite str_app_nil in *.
  - rewrite str_app_cons in Hs. destruct s as [|c' s]; [discriminate|].
    simpl in Hs. injection Hs as Hc Hs.
    destruct (IH s Hs) as (s1 & s2 & -> & H1 & H2).
    exists (String c' s1), s2. rewrite str_app_cons. simpl.
    by rewrite Hc, H1.
Qed.

Lemma prefix_spec (kw s : string) :
  String.prefix kw s = true ↔ ∃ post, s = kw +:+ post.
Proof.
  revert s. induction kw as [|c kw IH]; intros [|c' s]; simpl.
  - split; [|done]. intros _. by exists EmptyString.
  - split; [|done]. intros _. by exists (String c' s).
  - split; [done|]. intros (post & Hs). rewrite str_app_cons in Hs.
    discriminate.
  - destruct (ascii_dec c c') as [->|Hne].
    + rewrite IH. split; intros (post & Hs); exists post.
      * by rewrite str_app_cons, Hs.
      * rewrite str_app_cons in Hs. by injection Hs.
    + split; [done|]. intros (post & Hs). rewrite str_app_cons in Hs.
      injection Hs as Hc _. congruence.
Qed.

Lemma contains_spec (kw s : string) :
  PyStr.contains kw s = true ↔ ∃ pre post, s = pre +:+ kw +:+ post.
Proof.
  induction s as [|c s IH].
  - cbn [PyStr.contains]. rewrite orb_false_r, prefix_spec. split.
    + intros (post & Hs). by exists EmptyString, post.
    + intros ([|c pre] & post & Hs).
      * by exists post.
      * rewrite str_app_cons in Hs. discriminate.
  - cbn [PyStr.contains]. rewrite orb_true_iff, prefix_spec, IH. split.
    + intros [(post & Hs) | (pre & post & ->)].
      * by exists EmptyString, post.
      * by exists (String c pre), post.
    + intros ([|c' pre] & post & Hs).
      * left. by exists post.
      * right. rewrite str_app_cons in Hs. injection Hs as _ ->.
        by exists pre, post.
Qed.

(** ** The classifier *)

Lemma contains_lower_mentions (kw filename : string) :
  PyStr.contains kw (PyStr.lower filename) = true ↔ mentions kw filename.
Proof.
  rewrite contains_spec. split.
  - intros (a & b & Hl).
    apply lower_split in Hl as (pre & tail & -> & <- & Htail).
    apply lower_split in Htail as (w & post & -> & <- & <-).
    by exists pre, w, post.
  - intros (pre & w & post & -> & <-).
    exists (PyStr.lower pre), (PyStr.lower post). by rewrite !lower_app.
Qed.

Lemma any_in_mentions_any (kws : list string) (filename : string) :
  any_in kws (PyStr.lower filename) = true ↔ mentions_any kws filename.
Proof.
  unfold any_in, mentions_any. rewrite existsb_exists. split.
  - intros (kw & Hin%list_elem_of_In & Hc%contains_lower_mentions). eauto.
  - intros (kw & Hin%list_elem_of_In & Hc%contains_lower_mentions). eauto.
Qed.

Lemma any_in_not_mentions_any (kws : list string) (filename : string) :
  ¬ mentions_any kws filename → any_in kws (PyStr.lower filename) = false.
Proof.
  intros Hno. destruct (any_in kws (PyStr.lower filename)) eqn:Hany; [|done].
  by apply any_in_mentions_any in Hany.
Qed.

(** C4. [classify] tries the bill keywords, then the discharge keywords,
    then the id keywords, each by a case-insensitive substring test, and
    answers with the tag of the first list that matches; a filename that
    mentions a bill keyword in any letter case is classified "bill" by a
    program that performs no call at all, the LLM fallback included. *)
Theorem classify_keyword_priority `{Pydantic} (filename : string) :
  (bill_keywords = ["bill"; "invoice"; "payment"; "receipt"]
   ∧ discharge_keywords = ["discharge"; "summary"; "report"]
   ∧ id_keywords = ["id"; "card"; "policy"; "insurance"])
  ∧ (mentions_any bill_keywords filename →
     classify filename = Ret "bill"
     ∧ ∀ (S : Type) (h : handler Collab S) (s : S),
         run h (classify filename) s = (Ok "bill", s)
         ∧ trace h (classify filename) s = [])
  ∧ (¬ mentions_any bill_keywords filename →
     mentions_any discharge_keywords filename →
     classify filename = Ret "discharge_summary")
  ∧ (¬ mentions_any bill_keywords filename →
     ¬ mentions_any discharge_keywords filename →
     mentions_any id_keywords filename →
     classify filename = Ret "id_card").
Proof.
  split; [done|]. split; [|split].
  - intros Hb%any_in_mentions_any.
    assert (Hc : classify filename = Ret "bill").
    { unfold classify. by rewrite Hb. }
    split; [exact Hc|]. intros S h s. by rewrite Hc.
  - intros Hb%any_in_not_mentions_any Hd%any_in_mentions_any.
    unfold classify. by rewrite Hb, Hd.
  - intros Hb%any_in_not_mentions_any Hd%any_in_not_mentions_any
           Hi%any_in_mentions_any.
    unfold classify. by rewrite Hb, Hd, Hi.
Qed.

(** Witness of C4: "Hospital_BILL_report.pdf" mentions a bill keyword in
    upper case (and a discharge keyword), "Final_Report.PDF" a discharge
    keyword only. *)
Lemma classify_keyword_priority_witness :
  @classify sample_pydantic "Hospital_BILL_report.pdf" = Ret "bill"
  ∧ @classify sample_pydantic "Final_Report.PDF" = Ret "discharge_summary".
Proof.
  split.
  - apply (@classify_keyword_priority sample_pydantic "Hospital_BILL_report.pdf").
    exists "bill". split; [by left|].
    exists "Hospital_", "BILL", "_report.pdf". split; vm_compute; reflexivity.
  - apply (@classify_keyword_priority sample_pydantic "Final_Report.PDF").
    + intros Hm%any_in_mentions_any. vm_compute in Hm. discriminate Hm.
    + exists "report". split; [right; right; by left|].
      exists "Final_", "Report", ".PDF". split; vm_compute; reflexivity.
Defined.

(** ** Programs under a handler *)

Section Run.
Context {E : Type → Type} {S : Type} (h : handler E S).

Lemma run_bind {A B} (p : Prog E A) (f : A → Prog E B) (s : S) :
  run h (bind p f) s =
    match run h p s with
    | (Ok a, s') => run h (f a) s'
    | (Err e, s') => (Err e, s')
    end.
Proof.
  revert s. induction p as [a|e|X ev k IH]; intros s; simpl; [done..|].
  destruct (h X ev s) as [x s']. apply IH.
Qed.

Lemma run_try_except {A} (p : Prog E A) (k : exn → Prog E A) (s : S) :
  run h (try_except p k) s =
    match run h p s with
    | (Ok a, s') => (Ok a, s')
    | (Err e, s') => run h (k e) s'
    end.
Proof.
  revert s. induction p as [a|e|X ev k' IH]; intros s; simpl; [done..|].
  destruct (h X ev s) as [x s']. apply IH.
Qed.

Lemma run_call {A} (ev : E (result A)) (s : S) :
  run h (call ev) s =
    match h _ ev s with
    | (Ok a, s') => (Ok a, s')
    | (Err e, s') => (Err e, s')
    end.
Proof. simpl. by destruct (h _ ev s) as [[a|e] s']. Qed.

Lemma run_lift {A} (r : result A) (s : S) :
  run h (lift r) s = (r, s).
Proof. by destruct r. Qed.
End Run.

Section Absorb.
Context `{Pydantic} {S : Type} (h : handler Collab S).

(** The common shape of the three extractors. *)
Lemma run_extractor {A} (prompt system_prompt : string) (schema : Schema)
    (init : json → result A) (sentinel : A) (s : S) :
  run h (try_except
           (response ← call (get_structured_output prompt system_prompt schema);
            lift (init response))
           (λ _, Ret sentinel)) s =
    match h _ (get_structured_output prompt system_prompt schema) s with
    | (Ok response, s') =>
        (match init response with Ok d => Ok d | Err _ => Ok sentinel end, s')
    | (Err _, s') => (Ok sentinel, s')
    end.
Proof.
  rewrite run_try_except. unfold mbind, Prog_bind.
  rewrite run_bind, run_call.
  destruct (h _ (get_structured_output prompt system_prompt schema) s)
    as [[response|e] s']; [|done].
  rewrite run_lift. by destruct (init response).
Qed.

Lemma run_route_to_agent (self : ClaimOrchestrator)
    (doc_type text filename : string) (s : S) :
  run h (_route_to_agent self doc_type text filename) s =
    match agent_map self doc_type with
    | Some process =>
        match run h (process text filename) s with
        | (Ok d, s') => (Ok (Some d), s')
        | (Err _, s') => (Ok None, s')
        end
    | None => (Ok None, s)
    end.
Proof.
  unfold _route_to_agent. destruct (agent_map self doc_type) as [process|];
    [|done].
  rewrite run_try_except, run_bind.
  by destruct (run h (process text filename) s) as [[d|e] s'].
Qed.

Lemma route_to_agent_returns (self : ClaimOrchestrator)
    (doc_type text filename : string) (s : S) :
  returns h (_route_to_agent self doc_type text filename) s.
Proof.
  unfold returns. rewrite run_route_to_agent.
  destruct (agent_map self doc_type) as [process|]; [|eauto].
  destruct (run h (process text filename) s) as [[d|e] s']; eauto.
Qed.

Lemma route_documents_returns (self : ClaimOrchestrator)
    (items : list (FileInfo * string * string))
    (documents : list Document) (s : S) :
  returns h (route_documents self items documents) s.
Proof.
  revert documents s.
  induction items as [|[[file_info classification] text] rest IH];
    intros documents s.
  - by exists documents, s.
  - unfold returns. cbn [route_documents]. unfold mbind, Prog_bind.
    rewrite run_bind.
    destruct (route_to_agent_returns self classification text
                (fi_filename file_info) s) as (r & s' & ->).
    apply IH.
Qed.
End Absorb.

(** ** Failures of the structured-extraction collaborator *)

(** C5. Under every behaviour [h] of the collaborators: each extractor
    returns, and returns its sentinel record when the structured-extraction
    call raises or its answer does not fit the model (for a bill: "Unknown
    Hospital", 0.0, "2024-01-01"); whatever agents the orchestrator holds,
    [_route_to_agent] returns, with [None] when the agent raises, and the
    loop of step 3 then leaves the documents as they were and goes on; the
    loop returns, and so do steps 3 to 6 of the pipeline. *)
Theorem extraction_failure_absorbed `{Pydantic}
    (S : Type) (h : handler Collab S) (s : S) :
  (∀ text filename : string,
     let ev := get_structured_output (extraction_prompt "medical bill" text)
                 bill_system_prompt BillDocument_schema in
     returns h (BillAgent_process text filename) s
     ∧ (∀ e s', h _ ev s = (Err e, s') →
          run h (BillAgent_process text filename) s = (Ok bill_sentinel, s'))
     ∧ (∀ response e s',
          h _ ev s = (Ok response, s') → BillDocument_init response = Err e →
          run h (BillAgent_process text filename) s = (Ok bill_sentinel, s')))
  ∧ (∀ text filename : string,
       let ev := get_structured_output
                   (extraction_prompt "discharge summary" text)
                   discharge_system_prompt DischargeSummaryDocument_schema in
       returns h (DischargeAgent_process text filename) s
       ∧ (∀ e s', h _ ev s = (Err e, s') →
            run h (DischargeAgent_process text filename) s
            = (Ok discharge_sentinel, s'))
       ∧ (∀ response e s',
            h _ ev s = (Ok response, s') →
            DischargeSummaryDocument_init response = Err e →
            run h (DischargeAgent_process text filename) s
            = (Ok discharge_sentinel, s')))
  ∧ (∀ text filename : string,
       let ev := get_structured_output
                   (extraction_prompt "insurance ID card" text)
                   id_card_system_prompt IDCardDocument_schema in
       returns h (IDCardAgent_process text filename) s
       ∧ (∀ e s', h _ ev s = (Err e, s') →
            run h (IDCardAgent_process text filename) s
            = (Ok id_card_sentinel, s'))
       ∧ (∀ response e s',
            h _ ev s = (Ok response, s') →
            IDCardDocument_init response = Err e →
            run h (IDCardAgent_process text filename) s
            = (Ok id_card_sentinel, s')))
  ∧ (hospital_name bill_sentinel = "Unknown Hospital"
     ∧ total_amount bill_sentinel = FReal 0.0
     ∧ date_of_service bill_sentinel = "2024-01-01")
  ∧ (∀ (self : ClaimOrchestrator) (doc_type text filename : string),
       returns h (_route_to_agent self doc_type text filename) s
       ∧ (∀ process e s',
            agent_map self doc_type = Some process →
            run h (process text filename) s = (Err e, s') →
            run h (_route_to_agent self doc_type text filename) s
            = (Ok None, s')))
  ∧ (∀ (self : ClaimOrchestrator) (items : list (FileInfo * string * string))
       (documents : list Document),
       returns h (route_documents self items documents) s)
  ∧ (∀ (self : ClaimOrchestrator) (file_info : FileInfo)
       (classification text : string)
       (rest : list (FileInfo * string * string)) (documents : list Document)
       process e s',
       agent_map self classification = Some process →
       run h (process text (fi_filename file_info)) s = (Err e, s') →
       run h (route_documents self ((file_info, classification, text) :: rest)
                documents) s
       = run h (route_documents self rest documents) s')
  ∧ (∀ (self : ClaimOrchestrator) (file_paths : list FileInfo)
       (classifications extracted_texts : list string),
       returns h (process_claim_stages_3_to_6 self file_paths classifications
                    extracted_texts) s).
Proof.
  assert (Hextract :
    ∀ A prompt system_prompt schema (init : json → result A) sentinel,
      let p := try_except
                 (response ← call (get_structured_output prompt system_prompt
                                     schema);
                  lift (init response))
                 (λ _, Ret sentinel) in
      returns h p s
      ∧ (∀ e s', h _ (get_structured_output prompt system_prompt schema) s
                 = (Err e, s') → run h p s = (Ok sentinel, s'))
      ∧ (∀ response e s',
           h _ (get_structured_output prompt system_prompt schema) s
           = (Ok response, s') →
           init response = Err e → run h p s = (Ok sentinel, s'))).
  { intros A prompt system_prompt schema init sentinel p. subst p.
    unfold returns. rewrite run_extractor.
    destruct (h _ (get_structured_output prompt system_prompt schema) s)
      as [[response|e] s'].
    - split; [|split].
      + destruct (init response); eauto.
      + intros e s'' [=].
      + intros r e s'' [= <- <-] ->. reflexivity.
    - split; [|split].
      + eauto.
      + by intros e' s'' [= _ <-].
      + intros r e' s'' [=]. }
  split; [intros; apply Hextract|].
  split; [intros; apply Hextract|].
  split; [intros; apply Hextract|].
  split; [done|].
  split; [|split; [|split]].
  - intros self doc_type text filename. split.
    + apply route_to_agent_returns.
    + intros process e s' Hagent Hrun.
      by rewrite run_route_to_agent, Hagent, Hrun.
  - intros. apply route_documents_returns.
  - intros self file_info classification text rest documents process e s'
           Hagent Hrun.
    cbn [route_documents]. unfold mbind, Prog_bind.
    by rewrite run_bind, run_route_to_agent, Hagent, Hrun.
  - intros self file_paths classifications extracted_texts.
    unfold returns, process_claim_stages_3_to_6, mbind, Prog_bind.
    rewrite run_bind.
    destruct (route_documents_returns h self
                (zip3 file_paths classifications extracted_texts) [] s)
      as (documents & s' & ->).
    simpl. eauto.
Qed.

(** Witness of C5, with every call failing: the bill extractor returns its
    sentinel, and a raising bill agent adds no document while the next file
    is still processed. *)
Lemma extraction_failure_absorbed_witness :
  run (@failing_handler sample_pydantic)
      (BillAgent_process "Total: 150" "bill.pdf") tt
  = (Ok bill_sentinel, tt)
  ∧ run (@failing_handler sample_pydantic)
        (route_documents raising_orchestrator
           [(mkFileInfo "/tmp/bill.pdf" "bill.pdf", "bill", "Total: 150");
            (mkFileInfo "/tmp/id.pdf" "id.pdf", "id_card", "Policy")] []) tt
    = (Ok [IDCard id_card_sentinel], tt).
Proof.
  pose proof (@extraction_failure_absorbed sample_pydantic unit
                failing_handler tt) as (Hbill & _ & _ & _ & _ & _ & Hloop & _).
  split.
  - destruct (Hbill "Total: 150" "bill.pdf") as (_ & Hfail & _).
    apply (Hfail (OtherException "APIError" "unavailable") tt).
    reflexivity.
  - etrans.
    { eapply (Hloop raising_orchestrator); reflexivity. }
    vm_compute. reflexivity.
Defined.

(** ** Validation of the uploaded batch *)

Lemma endswith_spec (s suffix : string) :
  PyStr.endswith s suffix = true ↔ ∃ pre, s = pre +:+ suffix.
Proof.
  induction s as [|c s IH]; cbn [PyStr.endswith].
  - rewrite orb_false_r, String.eqb_eq. split.
    + intros <-. by exists EmptyString.
    + intros ([|c pre] & Hs); [done|]. rewrite str_app_cons in Hs. discriminate.
  - rewrite orb_true_iff, String.eqb_eq, IH. split.
    + intros [<- | (pre & ->)]; [by exists EmptyString|by exists (String c pre)].
    + intros ([|c' pre] & Hs); [by left|]. right.
      rewrite str_app_cons in Hs. injection Hs as _ ->. by exists pre.
Qed.

Lemma pdf_name_nonempty (file : UploadFile) :
  pdf_name file = true → PyStr.truthy (filename file) = true.
Proof.
  unfold pdf_name. destruct (filename file); [|done].
  vm_compute. discriminate.
Qed.

Lemma validate_pdf_file_ok (file : UploadFile) :
  ¬ offending file → validate_pdf_file file = Ok tt.
Proof.
  unfold offending, validate_pdf_file. fold (pdf_name file) (upload_size file).
  intros Hok. destruct (pdf_name file) eqn:Hpdf; [|tauto]. simpl.
  rewrite (pdf_name_nonempty file Hpdf). simpl.
  destruct (Z.ltb_spec MAX_FILE_SIZE (upload_size file)); [tauto|].
  destruct (Z.eqb_spec (upload_size file) 0); [tauto|done].
Qed.

Lemma validate_pdf_file_offending (file : UploadFile) :
  offending file →
  ∃ msg,
    validate_pdf_file file = Err (ValueError msg)
    ∧ names_file msg file
    ∧ ((pdf_name file = false ∧ msg = msg_not_pdf (filename file))
       ∨ (pdf_name file = true ∧ MAX_FILE_SIZE < upload_size file
          ∧ msg = msg_too_large (filename file) (upload_size file))
       ∨ (pdf_name file = true ∧ upload_size file = 0
          ∧ msg = msg_empty (filename file))).
Proof.
  unfold validate_pdf_file. fold (pdf_name file) (upload_size file).
  intros Hoff. destruct (pdf_name file) eqn:Hpdf; simpl.
  - rewrite (pdf_name_nonempty file Hpdf). simpl.
    destruct (Z.ltb_spec MAX_FILE_SIZE (upload_size file)) as [Hbig|Hsmall].
    + eexists. split; [done|]. split; [|right; left; done].
      by exists "❌ ",
        (" exceeds 25MB (" +:+ format_size_mb (upload_size file) +:+ "MB)").
    + destruct (Z.eqb_spec (upload_size file) 0) as [Hzero|Hpos].
      * eexists. split; [done|]. split; [|right; right; done].
        by exists "❌ ", " is empty".
      * exfalso. destruct Hoff as [?|[?|?]]; [congruence|done|lia].
  - eexists. split; [done|]. split; [|left; done].
    by exists "❌ ", " is not a PDF".
Qed.

Lemma validate_each_first_offending
    (pre rest : list UploadFile) (file : UploadFile) :
  (∀ f, f ∈ pre → ¬ offending f) →
  validate_each (pre ++ file :: rest) =
    match validate_pdf_file file with
    | Err e => Err e
    | Ok _ => validate_each rest
    end.
Proof.
  intros Hpre. induction pre as [|f pre IH]; [done|]. simpl.
  rewrite (validate_pdf_file_ok f) by (apply Hpre; by left).
  apply IH. intros g Hg. apply Hpre. by right.
Qed.

Lemma first_offending_exists (files : list UploadFile) :
  (∃ f, f ∈ files ∧ offending f) → ∃ file, first_offending file files.
Proof.
  induction files as [|f files IH].
  - intros (g & Hg & _). by apply not_elem_of_nil in Hg.
  - intros (g & Hg & Hoff). destruct (decide (offending f)) as [Hf|Hf].
    + exists f, [], files. split; [done|]. split; [|done].
      intros x Hx. by apply not_elem_of_nil in Hx.
    + destruct IH as (file & pre & rest & -> & Hpre & Hfile).
      { apply elem_of_cons in Hg as [->|Hg]; [done|]. by exists g. }
      exists file, (f :: pre), rest. split; [done|]. split; [|done].
      intros x [->|Hx]%elem_of_cons; [done|by apply Hpre].
Qed.

(** C9. Every invalid batch is refused with a [ValueError] before the
    endpoint calls anything: a batch with zero files with the message
    "At least one PDF file required" (there is no file to name); a batch
    with a file whose name does not end in ".pdf" (in any letter case), or
    that is empty, or that exceeds 25MB, with a message that quotes the name
    of an offending file, the first of the batch, and tells which test
    failed.  A 0-byte "bill.pdf" is refused with a message that names it.
    On such a batch the endpoint is the bare raise of an [HTTPException]
    (status 400 with that message, or 503 without an orchestrator): it
    performs no call, the orchestrator's [process_claim] included. *)
Theorem invalid_batch_rejected
    (value_error_subclass : string → bool) (files : list UploadFile) :
  let process_claim := process_claim value_error_subclass in
  (files = [] →
   validate_pdf_files files = Err (ValueError msg_no_files)
   ∧ process_claim true files = Raise (HTTPException 400 msg_no_files))
  ∧ ((∃ f, f ∈ files ∧ offending f) →
     ∃ file msg,
       first_offending file files
       ∧ validate_pdf_files files = Err (ValueError msg)
       ∧ names_file msg file
       ∧ ((pdf_name file = false ∧ msg = msg_not_pdf (filename file))
          ∨ (pdf_name file = true ∧ MAX_FILE_SIZE < upload_size file
             ∧ msg = msg_too_large (filename file) (upload_size file))
          ∨ (pdf_name file = true ∧ upload_size file = 0
             ∧ msg = msg_empty (filename file)))
       ∧ process_claim true files = Raise (HTTPException 400 msg))
  ∧ (files = [] ∨ (∃ f, f ∈ files ∧ offending f) →
     ∀ orchestrator : bool,
       (∃ e, process_claim orchestrator files = Raise e)
       ∧ ∀ (S : Type) (h : handler Endpoint S) (s : S),
           trace h (process_claim orchestrator files) s = [])
  ∧ validate_pdf_files [mkUpload "bill.pdf" []]
    = Err (ValueError "❌ 'bill.pdf' is empty").
Proof.
  intros process_claim'. subst process_claim'.
  assert (Hempty : files = [] →
                   validate_pdf_files files = Err (ValueError msg_no_files)
                   ∧ process_claim value_error_subclass true files
                     = Raise (HTTPException 400 msg_no_files)).
  { intros ->. split; reflexivity. }
  assert (Hoff : (∃ f, f ∈ files ∧ offending f) →
     ∃ file msg,
       first_offending file files
       ∧ validate_pdf_files files = Err (ValueError msg)
       ∧ names_file msg file
       ∧ ((pdf_name file = false ∧ msg = msg_not_pdf (filename file))
          ∨ (pdf_name file = true ∧ MAX_FILE_SIZE < upload_size file
             ∧ msg = msg_too_large (filename file) (upload_size file))
          ∨ (pdf_name file = true ∧ upload_size file = 0
             ∧ msg = msg_empty (filename file)))
       ∧ process_claim value_error_subclass true files
         = Raise (HTTPException 400 msg)).
  { intros (file & Hfirst)%first_offending_exists.
    pose proof Hfirst as (pre & rest & -> & Hpre & Hfile).
    destruct (validate_pdf_file_offending file Hfile) as (msg & Hv & Hn & Hcase).
    assert (Hvalidate : validate_pdf_files (pre ++ file :: rest)
                        = Err (ValueError msg)).
    { unfold validate_pdf_files.
      assert ((length (pre ++ file :: rest) <? 1)%nat = false) as ->.
      { apply Nat.ltb_ge. rewrite length_app. simpl. lia. }
      by rewrite validate_each_first_offending, Hv. }
    exists file, msg. split; [done|]. split; [done|]. split; [done|].
    split; [done|].
    unfold process_claim. simpl. unfold mbind, Prog_bind.
    by rewrite Hvalidate. }
  split; [exact Hempty|]. split; [exact Hoff|]. split; [|reflexivity].
  intros Hinvalid [|].
  - assert (∃ msg, process_claim value_error_subclass true files
                   = Raise (HTTPException 400 msg)) as (msg & ->).
    { destruct Hinvalid as [H0|H1].
      - exists msg_no_files. by apply Hempty.
      - destruct (Hoff H1) as (file & msg & _ & _ & _ & _ & Hp). by exists msg. }
    split; [by eexists|done].
  - split; [by eexists|done].
Qed.

(** Witness of C9: the 0-byte "bill.pdf". *)
Lemma invalid_batch_rejected_witness :
  process_claim sample_value_error_subclass true [mkUpload "bill.pdf" []]
  = Raise (HTTPException 400 "❌ 'bill.pdf' is empty").
Proof.
  destruct (invalid_batch_rejected sample_value_error_subclass
              [mkUpload "bill.pdf" []])
    as (_ & Hoff & _ & Hbill).
  destruct Hoff as (file & msg & _ & Hv & _ & _ & Hp).
  - exists (mkUpload "bill.pdf" []). split; [by left|].
    right. left. reflexivity.
  - rewrite Hp. rewrite Hbill in Hv. by injection Hv as <-.
Defined.

(** * Further properties of the code *)

(** ** The validator as a whole *)

Lemma next_of_type_cases (ty : string) (documents : list Document) :
  (∃ d, next_of_type ty documents = Some d
        ∧ doc_type d = ty ∧ first_of_type d documents)
  ∨ (next_of_type ty documents = None
     ∧ ∀ d, first_of_type d documents → doc_type d ≠ ty).
Proof.
  destruct (next_of_type ty documents) as [d|] eqn:Hn.
  - left. exists d. split; [done|]. by apply next_of_type_Some.
  - right. split; [done|]. intros d Hfirst%next_of_type_first Hty.
    rewrite Hty in Hfirst. congruence.
Qed.

Lemma discrepancies_nil (documents : list Document) :
  discrepancies (validate documents) = []
  ↔ check_names documents = [] ∧ check_dates documents = []
    ∧ check_bill documents = [] ∧ check_id_card documents = [].
Proof.
  unfold validate; simpl. split.
  - intros (-> & (-> & (-> & ->)%app_eq_nil)%app_eq_nil)%app_eq_nil. done.
  - by intros (-> & -> & -> & ->).
Qed.

Lemma check_names_nil (documents : list Document) :
  check_names documents = [] ↔ ¬ names_disagree documents.
Proof.
  unfold names_disagree. rewrite <- check_names_spec. split.
  - intros ->. apply not_elem_of_nil.
  - intros Hno. destruct (check_names documents) as [|m l] eqn:Hc; [done|].
    exfalso. apply Hno.
    assert (Hm : m ∈ check_names documents) by (rewrite Hc; by left).
    pose proof (check_names_only _ _ Hm) as ->. by left.
Qed.

Lemma check_bill_nil (documents : list Document) :
  check_bill documents = []
  ↔ ∀ b, first_of_type (Bill b) documents → float_le0 (total_amount b) = false.
Proof.
  split.
  - intros Hnil b Hfirst. rewrite (check_bill_first b) in Hnil by done.
    by destruct (float_le0 (total_amount b)).
  - intros Hall. destruct (next_of_type_cases "bill" documents)
      as [(d & Hn & Hty & Hfirst) | (Hn & _)].
    + destruct d as [b| |]; try discriminate Hty.
      rewrite (check_bill_first b) by done. by rewrite (Hall b Hfirst).
    + unfold check_bill. by rewrite Hn.
Qed.

Lemma check_dates_nil (documents : list Document) :
  check_dates documents = []
  ↔ ∀ d admission discharge,
      first_of_type (DischargeSummary d) documents →
      Strptime.strptime (admission_date d) = Some admission →
      Strptime.strptime (discharge_date d) = Some discharge →
      Strptime.date_ltb discharge admission = false.
Proof.
  split.
  - intros Hnil d admission discharge Hfirst Ha Hd.
    rewrite (check_dates_first d), Ha, Hd in Hnil by done.
    by destruct (Strptime.date_ltb discharge admission).
  - intros Hall. destruct (next_of_type_cases "discharge_summary" documents)
      as [(d & Hn & Hty & Hfirst) | (Hn & _)].
    + destruct d as [|d|]; try discriminate Hty.
      rewrite (check_dates_first d) by done.
      destruct (Strptime.strptime (admission_date d)) as [a|] eqn:Ha; [|done].
      destruct (Strptime.strptime (discharge_date d)) as [x|] eqn:Hd; [|done].
      by rewrite (Hall d a x Hfirst Ha Hd).
    + unfold check_dates. by rewrite Hn.
Qed.

Lemma check_id_card_nil (documents : list Document) :
  check_id_card documents = []
  ↔ ∀ c, first_of_type (IDCard c) documents →
         (policy_number c ≠ EmptyString ∧ policy_number c ≠ "UNKNOWN")
         ∧ (member_id c ≠ EmptyString ∧ member_id c ≠ "UNKNOWN").
Proof.
  assert (Hfield : ∀ s, (negb (PyStr.truthy s) || String.eqb s "UNKNOWN") = false
                        ↔ s ≠ EmptyString ∧ s ≠ "UNKNOWN").
  { intros s. rewrite <- not_true_iff_false, invalid_field_spec. tauto. }
  split.
  - intros Hnil c Hfirst. rewrite (check_id_card_first c) in Hnil by done.
    apply app_eq_nil in Hnil as [Hp Hm].
    split; apply Hfield.
    + by destruct (negb (PyStr.truthy (policy_number c))
                   || String.eqb (policy_number c) "UNKNOWN").
    + by destruct (negb (PyStr.truthy (member_id c))
                   || String.eqb (member_id c) "UNKNOWN").
  - intros Hall. destruct (next_of_type_cases "id_card" documents)
      as [(d & Hn & Hty & Hfirst) | (Hn & _)].
    + destruct d as [| |c]; try discriminate Hty.
      rewrite (check_id_card_first c) by done.
      destruct (Hall c Hfirst) as [Hp%Hfield Hm%Hfield]. by rewrite Hp, Hm.
    + unfold check_id_card. by rewrite Hn.
Qed.

(** X1. [validate] reports no discrepancy exactly when: no two documents
    carry different normalised names; the first bill, if any, has an amount
    that is not at most 0; the dates of the first discharge summary, if any
    and if both parse, are not in the wrong order; and the first id card,
    if any, has a policy number and a member id that are neither empty nor
    "UNKNOWN". *)
Theorem no_discrepancy_iff (documents : list Document) :
  discrepancies (validate documents) = []
  ↔ ¬ names_disagree documents
    ∧ (∀ d admission discharge,
         first_of_type (DischargeSummary d) documents →
         Strptime.strptime (admission_date d) = Some admission →
         Strptime.strptime (discharge_date d) = Some discharge →
         Strptime.date_ltb discharge admission = false)
    ∧ (∀ b, first_of_type (Bill b) documents →
            float_le0 (total_amount b) = false)
    ∧ (∀ c, first_of_type (IDCard c) documents →
            (policy_number c ≠ EmptyString ∧ policy_number c ≠ "UNKNOWN")
            ∧ (member_id c ≠ EmptyString ∧ member_id c ≠ "UNKNOWN")).
Proof.
  rewrite discrepancies_nil, check_names_nil, check_dates_nil,
    check_bill_nil, check_id_card_nil. reflexivity.
Qed.

Lemma check_sublists (documents : list Document) :
  check_names documents `sublist_of` [msg_name_mismatch]
  ∧ check_dates documents `sublist_of` [msg_date_order]
  ∧ check_bill documents `sublist_of` [msg_bill_amount]
  ∧ check_id_card documents `sublist_of` [msg_policy_number; msg_member_id].
Proof.
  split; [|split; [|split]].
  - unfold check_names. repeat case_match; (reflexivity || apply sublist_nil_l).
  - unfold check_dates. repeat case_match; (reflexivity || apply sublist_nil_l).
  - unfold check_bill. repeat case_match; (reflexivity || apply sublist_nil_l).
  - unfold check_id_card.
    destruct (next_of_type "id_card" documents) as [[| |c]|];
      try apply sublist_nil_l.
    apply (sublist_app _ [msg_policy_number] _ [msg_member_id]);
      case_match; (reflexivity || apply sublist_nil_l).
Qed.

(** X2. Whatever the documents, the discrepancies are some of the five
    messages in the fixed order name, dates, bill, policy number, member
    id: none twice, five at most. *)
Theorem discrepancies_in_fixed_order (documents : list Document) :
  discrepancies (validate documents) `sublist_of` all_messages
  ∧ NoDup (discrepancies (validate documents))
  ∧ (length (discrepancies (validate documents)) ≤ 5)%nat.
Proof.
  assert (Hsub : discrepancies (validate documents) `sublist_of` all_messages).
  { destruct (check_sublists documents) as (Hn & Hd & Hb & Hi).
    unfold validate, all_messages; simpl.
    apply (sublist_app _ [msg_name_mismatch]); [done|].
    apply (sublist_app _ [msg_date_order]); [done|].
    by apply (sublist_app _ [msg_bill_amount]). }
  split; [exact Hsub|]. split.
  - eapply sublist_NoDup; [|exact Hsub].
    unfold all_messages. apply (bool_decide_eq_true_1 (NoDup _)).
    vm_compute. reflexivity.
  - apply sublist_length in Hsub. exact Hsub.
Qed.

(** ** The order of the documents *)

Lemma patient_names_perm (l1 l2 : list Document) :
  l1 ≡ₚ l2 → patient_names l1 ≡ₚ patient_names l2.
Proof.
  induction 1 as [|x l1 l2 _ IH|x y l|l1 l2 l3 _ IH1 _ IH2]; simpl.
  - done.
  - destruct (patient_name x) as [n|]; [|done].
    destruct (PyStr.truthy n); [by constructor|done].
  - destruct (patient_name x) as [n|], (patient_name y) as [m|]; try done;
      try destruct (PyStr.truthy n); try destruct (PyStr.truthy m);
      try done. apply perm_swap.
  - by etrans.
Qed.

Lemma check_names_perm (l1 l2 : list Document) :
  l1 ≡ₚ l2 → check_names l1 = check_names l2.
Proof.
  intros Hp%patient_names_perm. unfold check_names.
  rewrite (Permutation_length Hp).
  assert ((list_to_set (snd <$> patient_names l1) : gset string)
          = list_to_set (snd <$> patient_names l2)) as ->; [|done].
  apply list_to_set_perm_L. by apply fmap_Permutation.
Qed.

Lemma doc_types_perm (l1 l2 : list Document) :
  l1 ≡ₚ l2 → doc_types l1 = doc_types l2.
Proof.
  intros Hp. unfold doc_types. apply list_to_set_perm_L.
  by apply fmap_Permutation.
Qed.

Lemma next_of_type_unique (d : Document) (documents : list Document) :
  NoDup (doc_type <$> documents) → d ∈ documents →
  next_of_type (doc_type d) documents = Some d.
Proof.
  intros Hnd (pre & rest & ->)%list_elem_of_split.
  apply next_of_type_first. exists pre, rest. split; [done|].
  intros x Hx Heq. rewrite fmap_app, fmap_cons in Hnd.
  apply NoDup_app in Hnd as (_ & Hdisj & _).
  apply (Hdisj (doc_type x)).
  - apply list_elem_of_fmap. by exists x.
  - rewrite Heq. by left.
Qed.

Lemma next_of_type_perm (ty : string) (l1 l2 : list Document) :
  l1 ≡ₚ l2 → NoDup (doc_type <$> l1) →
  next_of_type ty l1 = next_of_type ty l2.
Proof.
  intros Hp Hnd1.
  assert (Hnd2 : NoDup (doc_type <$> l2)).
  { by rewrite <- Hp. }
  destruct (next_of_type ty l1) as [d|] eqn:H1.
  - apply next_of_type_Some in H1 as (<- & pre & rest & Hl & _).
    symmetry. apply next_of_type_unique; [done|].
    rewrite <- Hp, Hl. apply elem_of_app. right. by left.
  - destruct (next_of_type ty l2) as [d|] eqn:H2; [|done].
    apply next_of_type_Some in H2 as (<- & pre & rest & Hl & _).
    rewrite next_of_type_unique in H1; [done|done|].
    rewrite Hp, Hl. apply elem_of_app. right. by left.
Qed.

(** X3. Reordering the documents changes neither the missing documents nor
    the outcome of the name check; and when no two documents have the same
    type, it changes nothing in the result of [validate]. *)
Theorem validate_order_insensitive (l1 l2 : list Document) :
  l1 ≡ₚ l2 →
  missing_documents (validate l1) = missing_documents (validate l2)
  ∧ check_names l1 = check_names l2
  ∧ (NoDup (doc_type <$> l1) → validate l1 = validate l2).
Proof.
  intros Hp. split; [|split].
  - unfold validate; simpl. by rewrite (doc_types_perm l1 l2).
  - by apply check_names_perm.
  - intros Hnd. unfold validate.
    rewrite (doc_types_perm l1 l2 Hp), (check_names_perm l1 l2 Hp).
    unfold check_dates, check_bill, check_id_card.
    by rewrite !(next_of_type_perm _ l1 l2 Hp Hnd).
Qed.

(** Witness of X3: the three sample documents in two orders. *)
Lemma validate_order_insensitive_witness :
  validate [sample_bill; sample_discharge; sample_id_card]
  = validate [sample_id_card; sample_bill; sample_discharge].
Proof.
  apply (validate_order_insensitive
           [sample_bill; sample_discharge; sample_id_card]
           [sample_id_card; sample_bill; sample_discharge]).
  - symmetry.
    apply (Permutation_cons_append [sample_bill; sample_discharge] sample_id_card).
  - apply (bool_decide_eq_true_1 (NoDup _)). vm_compute. reflexivity.
Defined.

(** ** Sentinel records *)

Lemma decision_approved_no_discrepancy
    (documents : list Document) (v : ValidationResult) :
  status (_make_decision documents v) = approved →
  missing_documents v = [] ∧ discrepancies v = []
  ∧ required_types ⊆ doc_types documents.
Proof.
  unfold _make_decision.
  destruct (missing_documents v); [|discriminate].
  destruct (discrepancies v); [|discriminate].
  case_bool_decide; [done|discriminate].
Qed.

(** X4. A sentinel record of a failed extraction keeps the claim from
    being approved: when the first bill is the bill sentinel (amount 0.0),
    or the first id card is the id-card sentinel (both fields "UNKNOWN"),
    the decision on the validator's result is not approved.  The discharge
    sentinel, whose dates are in order, adds no date discrepancy. *)
Theorem sentinel_blocks_approval (documents : list Document) :
  (first_of_type (Bill bill_sentinel) documents
   ∨ first_of_type (IDCard id_card_sentinel) documents →
   status (_make_decision documents (validate documents)) ≠ approved)
  ∧ (first_of_type (DischargeSummary discharge_sentinel) documents →
     check_dates documents = []).
Proof.
  split.
  - intros Hsent Happ.
    apply decision_approved_no_discrepancy in Happ as (_ & Hnil & _).
    apply discrepancies_nil in Hnil as (_ & _ & Hb & Hi).
    destruct Hsent as [Hfirst|Hfirst].
    + rewrite (check_bill_first bill_sentinel) in Hb by done. discriminate Hb.
    + rewrite (check_id_card_first id_card_sentinel) in Hi by done.
      discriminate Hi.
  - intros Hfirst. by rewrite (check_dates_first discharge_sentinel).
Qed.

(** Witness of X4: the bill sentinel with a valid discharge summary and id
    card is sent to review. *)
Lemma sentinel_blocks_approval_witness :
  status (_make_decision [Bill bill_sentinel; sample_discharge; sample_id_card]
            (validate [Bill bill_sentinel; sample_discharge; sample_id_card]))
  ≠ approved.
Proof.
  apply (proj1 (sentinel_blocks_approval
                  [Bill bill_sentinel; sample_discharge; sample_id_card])).
  left. apply first_of_type_head.
Defined.

(** ** Normalised names *)

Lemma space_not_upper (c : ascii) :
  PyStr.is_space c = true → PyStr.lower_char c = c.
Proof. destruct c as [[] [] [] [] [] [] [] []]; vm_compute; congruence. Qed.

Lemma blank_lower (s : string) : blank s = true → PyStr.lower s = s.
Proof.
  induction s as [|c s IH]; simpl; [done|].
  intros [Hc Hs]%andb_true_iff. by rewrite space_not_upper, IH.
Qed.

Lemma lstrip_blank_app (p s : string) :
  blank p = true → PyStr.lstrip (p +:+ s) = PyStr.lstrip s.
Proof.
  induction p as [|c p IH]; [done|]. cbn [blank].
  intros [Hc Hp]%andb_true_iff. rewrite str_app_cons. cbn [PyStr.lstrip].
  rewrite Hc. by apply IH.
Qed.

Lemma lstrip_blank (q : string) : blank q = true → PyStr.lstrip q = EmptyString.
Proof.
  induction q as [|c q IH]; [done|]. cbn [blank PyStr.lstrip].
  intros [Hc Hq]%andb_true_iff. rewrite Hc. by apply IH.
Qed.

Lemma rstrip_blank (q : string) : blank q = true → PyStr.rstrip q = EmptyString.
Proof.
  induction q as [|c q IH]; simpl; [done|].
  intros [Hc Hq]%andb_true_iff. by rewrite IH, Hc.
Qed.

Lemma rstrip_app_blank (s q : string) :
  blank q = true → PyStr.rstrip (s +:+ q) = PyStr.rstrip s.
Proof.
  intros Hq. induction s as [|c s IH].
  - rewrite str_app_nil. by apply rstrip_blank.
  - rewrite str_app_cons. cbn [PyStr.rstrip]. by rewrite IH.
Qed.

Lemma strip_app_blank (s q : string) :
  blank q = true → PyStr.strip (s +:+ q) = PyStr.strip s.
Proof.
  intros Hq. unfold PyStr.strip. induction s as [|c s IH].
  - rewrite str_app_nil, (lstrip_blank q Hq). reflexivity.
  - rewrite str_app_cons. cbn [PyStr.lstrip].
    destruct (PyStr.is_space c); [exact IH|].
    by rewrite <- str_app_cons, rstrip_app_blank.
Qed.

Lemma strip_padded (before core after : string) :
  blank before = true → blank after = true →
  PyStr.strip (before +:+ core +:+ after) = PyStr.strip core.
Proof.
  intros Hb Ha. rewrite <- (strip_app_blank core after Ha).
  unfold PyStr.strip. by rewrite lstrip_blank_app.
Qed.

Lemma name_variant_normalised (name raw : string) :
  name_variant name raw →
  PyStr.strip (PyStr.lower raw) = PyStr.strip (PyStr.lower name).
Proof.
  intros (before & core & after & -> & Hb & Ha & Hcore).
  rewrite !lower_app, (blank_lower before Hb), (blank_lower after Ha), Hcore.
  by apply strip_padded.
Qed.

(** X5. The name check ignores letter case and surrounding whitespace, and
    documents without a name: when every non-empty patient name of the
    list is one name up to case and padding, no name mismatch is
    reported. *)
Theorem name_check_ignores_case_and_padding
    (documents : list Document) (name : string) :
  (∀ d raw, d ∈ documents → patient_name d = Some raw →
            raw = EmptyString ∨ name_variant name raw) →
  msg_name_mismatch ∉ discrepancies (validate documents).
Proof.
  intros Hall. rewrite name_message_from_check, check_names_spec.
  intros (d1 & d2 & n1 & n2 & Hd1 & Hd2 & (r1 & Hr1 & Hne1 & ->)
          & (r2 & Hr2 & Hne2 & ->) & Hdiff).
  apply Hdiff.
  destruct (Hall d1 r1 Hd1 Hr1) as [?|Hv1]; [done|].
  destruct (Hall d2 r2 Hd2 Hr2) as [?|Hv2]; [done|].
  by rewrite (name_variant_normalised name r1), (name_variant_normalised name r2).
Qed.

(** Witness of X5: "John Doe" on the bill, "  JOHN doe " on the id card. *)
Lemma name_check_ignores_case_and_padding_witness :
  msg_name_mismatch
    ∉ discrepancies
        (validate [sample_bill;
                   IDCard {| id_patient_name := "  JOHN doe ";
                             policy_number := "POL123";
                             member_id := "MEM456";
                             insurance_provider := None |}]).
Proof.
  apply (name_check_ignores_case_and_padding _ "John Doe").
  intros d raw Hd Hraw. right.
  apply elem_of_cons in Hd as [->|Hd].
  - injection Hraw as <-.
    exists EmptyString, "John Doe", EmptyString. by vm_compute.
  - apply list_elem_of_singleton in Hd as ->. injection Hraw as <-.
    exists "  ", "JOHN doe", " ". by vm_compute.
Defined.

(** ** The decision on the validator's result *)

Lemma missing_nil_iff_superset (documents : list Document) :
  missing_documents (validate documents) = []
  ↔ required_types ⊆ doc_types documents.
Proof.
  split; [apply missing_empty_superset|].
  intros Hsub. rewrite missing_documents_validate.
  assert (required_types ∖ doc_types documents = ∅) as ->.
  { apply set_eq. intros t. rewrite elem_of_difference.
    split; [intros [Ht Hn]; by apply Hsub in Ht|].
    intros Ht. by apply not_elem_of_empty in Ht. }
  apply elements_empty.
Qed.

(** X6. On the validator's own result the status tells the state of the
    claim: rejected exactly when a bill, a discharge summary or an id card
    is absent, pending_review exactly when the three are present and some
    discrepancy was found, approved exactly when they are present and none
    was found. *)
Theorem decision_status_iff (documents : list Document) :
  let d := _make_decision documents (validate documents) in
  (status d = rejected ↔ ¬ all_three_present documents)
  ∧ (status d = pending_review
     ↔ all_three_present documents
       ∧ discrepancies (validate documents) ≠ [])
  ∧ (status d = approved
     ↔ all_three_present documents
       ∧ discrepancies (validate documents) = []).
Proof.
  intros d. subst d.
  rewrite <- superset_all_three, <- missing_nil_iff_superset.
  pose proof (missing_nil_iff_superset documents) as Hsup.
  unfold _make_decision.
  destruct (missing_documents (validate documents)) as [|m ms].
  - destruct (discrepancies (validate documents)) as [|x xs].
    + rewrite bool_decide_eq_true_2 by (by apply Hsup). simpl.
      split; [|split]; split; try done; try (by intros [_ ?]); tauto.
    + simpl. split; [|split]; split; try done; try (by intros [_ ?]); tauto.
  - simpl. split; [|split]; split; try done; by intros [? _].
Qed.

(** Witness of X6: the three sample documents are approved, the same with
    an id card whose policy number is "UNKNOWN" are sent to review, and a
    lone bill is rejected. *)
Lemma decision_status_iff_witness :
  status (_make_decision [sample_bill; sample_discharge; sample_id_card]
            (validate [sample_bill; sample_discharge; sample_id_card]))
  = approved
  ∧ status (_make_decision
              [sample_bill; sample_discharge; id_card_with "UNKNOWN" "MEM456"]
              (validate
                 [sample_bill; sample_discharge; id_card_with "UNKNOWN" "MEM456"]))
    = pending_review
  ∧ status (_make_decision [sample_bill] (validate [sample_bill])) = rejected.
Proof.
  split; [|split].
  - apply (decision_status_iff [sample_bill; sample_discharge; sample_id_card]).
    split; [|vm_compute; reflexivity].
    split; [|split]; eexists; [by left|right; by left|right; right; by left].
  - apply (decision_status_iff
             [sample_bill; sample_discharge; id_card_with "UNKNOWN" "MEM456"]).
    split; [|vm_compute; discriminate].
    split; [|split]; eexists; [by left|right; by left|right; right; by left].
  - apply (decision_status_iff [sample_bill]).
    intros (_ & (d & Hd) & _).
    apply elem_of_cons in Hd as [Hd|Hd]; [discriminate Hd|].
    by apply not_elem_of_nil in Hd.
Defined.

(** X7. Whatever the documents and the validation result, the decision
    carries a confidence score, and it lies between 0 and 1. *)
Theorem confidence_score_in_unit_interval
    (documents : list Document) (v : ValidationResult) :
  ∃ q, confidence_score (_make_decision documents v) = Some (FReal q)
       ∧ (0 <= q)%Q ∧ (q <= 1)%Q.
Proof.
  unfold _make_decision.
  destruct (missing_documents v); [destruct (discrepancies v);
    [case_bool_decide|]|];
    eexists; (split; [reflexivity|]); split; by vm_compute.
Qed.

Lemma str_app_assoc (a b c : string) : (a +:+ b) +:+ c = a +:+ b +:+ c.
Proof.
  induction a as [|x a IH]; [done|]. by rewrite !str_app_cons, IH.
Qed.

Lemma str_app_nil_r (a : string) : a +:+ EmptyString = a.
Proof. induction a as [|x a IH]; [done|]. by rewrite str_app_cons, IH. Qed.

Lemma join_mentions (sep t : string) (l : list string) :
  t ∈ l → ∃ pre post, PyStr.join sep l = pre +:+ t +:+ post.
Proof.
  unfold PyStr.join. induction l as [|x l IH]; [by intros ?%not_elem_of_nil|].
  intros [->|Hin]%elem_of_cons.
  - destruct l as [|y l].
    + exists EmptyString, EmptyString.
      change (String.concat sep [x]) with x.
      by rewrite str_app_nil, str_app_nil_r.
    + by exists EmptyString, (sep +:+ String.concat sep (y :: l)).
  - destruct l as [|y l]; [by apply not_elem_of_nil in Hin|].
    destruct (IH Hin) as (pre & post & Hj).
    exists (x +:+ sep +:+ pre), post.
    change (String.concat sep (x :: y :: l))
      with (x +:+ sep +:+ String.concat sep (y :: l)).
    by rewrite Hj, !str_app_assoc.
Qed.

(** X8. A rejection for missing documents names each of them: every type
    listed in [missing_documents] occurs in the reason, and the status is
    rejected. *)
Theorem rejection_reason_names_missing
    (documents : list Document) (v : ValidationResult) (t : string) :
  t ∈ missing_documents v →
  status (_make_decision documents v) = rejected
  ∧ PyStr.contains t (reason (_make_decision documents v)) = true.
Proof.
  intros Hin. unfold _make_decision.
  destruct (missing_documents v) as [|m ms] eqn:Hm;
    [by apply not_elem_of_nil in Hin|].
  cbn [status reason]. split; [done|]. apply contains_spec.
  destruct (join_mentions ", " t (m :: ms) Hin) as (pre & post & ->).
  exists ("Missing required documents: " +:+ pre), post.
  by rewrite !str_app_assoc.
Qed.

(** Witness of X8: a lone bill is rejected with a reason that names the
    discharge summary. *)
Lemma rejection_reason_names_missing_witness :
  status (_make_decision [sample_bill] (validate [sample_bill])) = rejected
  ∧ PyStr.contains "discharge_summary"
      (reason (_make_decision [sample_bill] (validate [sample_bill]))) = true.
Proof.
  apply (rejection_reason_names_missing [sample_bill] (validate [sample_bill])).
  apply (bool_decide_eq_true_1 (_ ∈ _)). vm_compute. reflexivity.
Defined.

(** ** The events of a program *)

Section Trace.
Context {E : Type → Type} {S : Type} (h : handler E S).

Lemma trace_bind {A B} (p : Prog E A) (f : A → Prog E B) (s : S) :
  trace h (bind p f) s =
    trace h p s ++
    match run h p s with
    | (Ok a, s') => trace h (f a) s'
    | (Err _, _) => []
    end.
Proof.
  revert s. induction p as [a|e|X ev k IH]; intros s; simpl; [done..|].
  destruct (h X ev s) as [x s']. by rewrite IH.
Qed.

Lemma trace_try_except {A} (p : Prog E A) (k : exn → Prog E A) (s : S) :
  trace h (try_except p k) s =
    trace h p s ++
    match run h p s with
    | (Ok _, _) => []
    | (Err e, s') => trace h (k e) s'
    end.
Proof.
  revert s. induction p as [a|e|X ev k' IH]; intros s; simpl; [done..|].
  destruct (h X ev s) as [x s']. by rewrite IH.
Qed.

Lemma trace_call {A} (ev : E (result A)) (s : S) :
  trace h (call ev) s = [Event ev].
Proof. simpl. by destruct (h _ ev s) as [[a|e] s']. Qed.
End Trace.

(** ** The classifier's fallback *)

Lemma mentions_any_app (l1 l2 : list string) (filename : string) :
  mentions_any (l1 ++ l2) filename
  ↔ mentions_any l1 filename ∨ mentions_any l2 filename.
Proof.
  unfold mentions_any. split.
  - intros (kw & [Hin|Hin]%elem_of_app & Hm); [left|right]; by exists kw.
  - intros [(kw & Hin & Hm)|(kw & Hin & Hm)]; exists kw;
      (split; [apply elem_of_app; auto|done]).
Qed.

Lemma no_keyword_any_in (filename : string) :
  ¬ mentions_any all_keywords filename →
  any_in bill_keywords (PyStr.lower filename) = false
  ∧ any_in discharge_keywords (PyStr.lower filename) = false
  ∧ any_in id_keywords (PyStr.lower filename) = false.
Proof.
  unfold all_keywords. rewrite !mentions_any_app. intros Hno.
  split; [|split]; apply any_in_not_mentions_any; tauto.
Qed.

Lemma keyword_classify_leaf `{Pydantic} (filename : string) :
  mentions_any all_keywords filename → ∃ t, classify filename = Ret t.
Proof.
  unfold all_keywords. rewrite !mentions_any_app, <- !any_in_mentions_any.
  intros Hk. unfold classify.
  destruct (any_in bill_keywords (PyStr.lower filename)); [by eexists|].
  destruct (any_in discharge_keywords (PyStr.lower filename)); [by eexists|].
  destruct (any_in id_keywords (PyStr.lower filename)); [by eexists|].
  by destruct Hk as [?|[?|?]].
Qed.

Lemma valid_type_existsb (c : string) :
  existsb (String.eqb c) valid_types = true ↔ c ∈ valid_types.
Proof.
  rewrite existsb_exists. split.
  - intros (x & Hin%list_elem_of_In & ->%String.eqb_eq). done.
  - intros Hin. exists c. split; [by apply list_elem_of_In|apply String.eqb_refl].
Qed.

(** The answer that the fallback makes of the collaborator's reply. *)
Lemma run_classify_fallback `{Pydantic} {S : Type} (h : handler Collab S)
    (filename : string) (s : S) :
  ¬ mentions_any all_keywords filename →
  run h (classify filename) s =
    match h _ (get_completion ("Classify this document: " +:+ filename)
                 classifier_system_prompt) s with
    | (Ok (Some text), s') =>
        (Ok (if existsb (String.eqb (PyStr.lower (PyStr.strip text))) valid_types
             then PyStr.lower (PyStr.strip text) else "bill"), s')
    | (_, s') => (Ok "bill", s')
    end.
Proof.
  intros (Hb & Hd & Hi)%no_keyword_any_in. unfold classify.
  rewrite Hb, Hd, Hi, run_try_except. unfold mbind, Prog_bind.
  rewrite run_bind, run_call.
  destruct (h _ (get_completion ("Classify this document: " +:+ filename)
                   classifier_system_prompt) s) as [[[text|]|e] s']; try done.
  cbn [run lift bind try_except].
  by destruct (existsb (String.eqb (PyStr.lower (PyStr.strip text))) valid_types).
Qed.

(** X9. Under every behaviour of the LLM, [classify] returns, and what it
    returns is one of "bill", "discharge_summary" and "id_card". *)
Theorem classify_returns_valid_type `{Pydantic}
    (S : Type) (h : handler Collab S) (s : S) (filename : string) :
  ∃ t s', run h (classify filename) s = (Ok t, s') ∧ t ∈ valid_types.
Proof.
  destruct (any_in all_keywords (PyStr.lower filename)) eqn:Hany.
  - unfold classify, all_keywords, any_in in *.
    rewrite !existsb_app, !orb_true_iff in Hany.
    fold (any_in bill_keywords (PyStr.lower filename)) in *.
    fold (any_in discharge_keywords (PyStr.lower filename)) in *.
    fold (any_in id_keywords (PyStr.lower filename)) in *.
    destruct (any_in bill_keywords (PyStr.lower filename)).
    { exists "bill", s. split; [done|]. by left. }
    destruct (any_in discharge_keywords (PyStr.lower filename)).
    { exists "discharge_summary", s. split; [done|]. right. by left. }
    destruct (any_in id_keywords (PyStr.lower filename)).
    { exists "id_card", s. split; [done|]. right. right. by left. }
    by destruct Hany as [?|[?|?]].
  - assert (Hno : ¬ mentions_any all_keywords filename).
    { intros Hm%any_in_mentions_any. congruence. }
    rewrite (run_classify_fallback h filename s Hno).
    destruct (h _ (get_completion ("Classify this document: " +:+ filename)
                     classifier_system_prompt) s) as [[[text|]|e] s'].
    + destruct (existsb (String.eqb (PyStr.lower (PyStr.strip text)))
                  valid_types) eqn:Hv.
      * eexists _, s'. split; [done|]. by apply valid_type_existsb.
      * exists "bill", s'. split; [done|]. by left.
    + exists "bill", s'. split; [done|]. by left.
    + exists "bill", s'. split; [done|]. by left.
Qed.

(** X10. [classify] asks the LLM at most once: not at all when the
    filename mentions a keyword, and otherwise exactly once, with the
    prompt "Classify this document: " followed by the filename and the
    classifier's system prompt. *)
Theorem classify_asks_llm_at_most_once `{Pydantic}
    (S : Type) (h : handler Collab S) (s : S) (filename : string) :
  (mentions_any all_keywords filename → trace h (classify filename) s = [])
  ∧ (¬ mentions_any all_keywords filename →
     trace h (classify filename) s
     = [Event (get_completion ("Classify this document: " +:+ filename)
                 classifier_system_prompt)]).
Proof.
  split.
  - intros (t & ->)%keyword_classify_leaf. done.
  - intros (Hb & Hd & Hi)%no_keyword_any_in. unfold classify.
    rewrite Hb, Hd, Hi, trace_try_except. unfold mbind, Prog_bind.
    rewrite trace_bind, trace_call, run_bind, run_call.
    destruct (h _ (get_completion ("Classify this document: " +:+ filename)
                     classifier_system_prompt) s) as [[[text|]|e] s'];
      try done.
    by destruct (existsb (String.eqb (PyStr.lower (PyStr.strip text))) valid_types).
Qed.

(** Witness of X10: "scan_0001.pdf" mentions no keyword. *)
Lemma classify_asks_llm_at_most_once_witness :
  trace (@failing_handler sample_pydantic) (classify "scan_0001.pdf") tt
  = [Event (get_completion "Classify this document: scan_0001.pdf"
              classifier_system_prompt)].
Proof.
  apply (@classify_asks_llm_at_most_once sample_pydantic).
  intros Hm%any_in_mentions_any. vm_compute in Hm. discriminate Hm.
Defined.

Lemma lower_char_space (c : ascii) :
  PyStr.is_space (PyStr.lower_char c) = PyStr.is_space c.
Proof. destruct c as [[] [] [] [] [] [] [] []]; vm_compute; congruence. Qed.

Lemma lower_lstrip (s : string) :
  PyStr.lower (PyStr.lstrip s) = PyStr.lstrip (PyStr.lower s).
Proof.
  induction s as [|c s IH]; [done|]. cbn [PyStr.lstrip PyStr.lower].
  rewrite lower_char_space. by destruct (PyStr.is_space c).
Qed.

Lemma lower_rstrip (s : string) :
  PyStr.lower (PyStr.rstrip s) = PyStr.rstrip (PyStr.lower s).
Proof.
  induction s as [|c s IH]; [done|]. cbn [PyStr.rstrip PyStr.lower].
  rewrite <- IH, lower_char_space.
  destruct (PyStr.rstrip s); [by destruct (PyStr.is_space c)|done].
Qed.

Lemma lower_strip (s : string) :
  PyStr.lower (PyStr.strip s) = PyStr.strip (PyStr.lower s).
Proof. unfold PyStr.strip. by rewrite lower_rstrip, lower_lstrip. Qed.

Lemma valid_type_normal (t : string) :
  t ∈ valid_types → PyStr.strip t = t.
Proof.
  intros Ht. apply list_elem_of_In in Ht. simpl in Ht.
  destruct Ht as [<-|[<-|[<-|[]]]]; by vm_compute.
Qed.

(** X11. When the filename mentions no keyword, the reply of the LLM
    decides: a reply that is a valid type up to letter case and surrounding
    whitespace gives that type; a call that raises, and a reply without
    text, give "bill". *)
Theorem classify_fallback_reply `{Pydantic}
    (S : Type) (h : handler Collab S) (s s' : S) (filename : string) :
  ¬ mentions_any all_keywords filename →
  let ev := get_completion ("Classify this document: " +:+ filename)
              classifier_system_prompt in
  (∀ text t, h _ ev s = (Ok (Some text), s') →
             t ∈ valid_types → name_variant t text →
             run h (classify filename) s = (Ok t, s'))
  ∧ (∀ e, h _ ev s = (Err e, s') →
          run h (classify filename) s = (Ok "bill", s'))
  ∧ (h _ ev s = (Ok None, s') →
     run h (classify filename) s = (Ok "bill", s')).
Proof.
  intros Hno ev. subst ev.
  rewrite (run_classify_fallback h filename s Hno).
  split; [|split].
  - intros text t -> Ht Hvar.
    assert (Hnorm : PyStr.lower (PyStr.strip text) = t).
    { rewrite lower_strip, (name_variant_normalised t text Hvar).
      rewrite <- lower_strip, (valid_type_normal t Ht).
      apply list_elem_of_In in Ht. simpl in Ht.
      destruct Ht as [<-|[<-|[<-|[]]]]; by vm_compute. }
    rewrite Hnorm. by rewrite (proj2 (valid_type_existsb t) Ht).
  - by intros e ->.
  - by intros ->.
Qed.

(** Witness of X11: the padded, capitalised reply is taken as
    "discharge_summary". *)
Lemma classify_fallback_reply_witness :
  run (@padded_reply_handler sample_pydantic) (classify "scan_0001.pdf") tt
  = (Ok "discharge_summary", tt).
Proof.
  eapply (@classify_fallback_reply sample_pydantic unit padded_reply_handler
            tt tt "scan_0001.pdf").
  - intros Hm%any_in_mentions_any. vm_compute in Hm. discriminate Hm.
  - reflexivity.
  - right. by left.
  - exists " ", "Discharge_Summary", (String "010" EmptyString). by vm_compute.
Defined.

(** ** The extractors' request *)

Lemma str_take_app (n : nat) (prefix rest : string) :
  String.length prefix = n → str_take n (prefix +:+ rest) = prefix.
Proof.
  unfold str_take. revert n. induction prefix as [|c p IH]; intros n Hn.
  - simpl in Hn. subst n. rewrite str_app_nil. by destruct rest.
  - simpl in Hn. subst n. rewrite str_app_cons. simpl. by rewrite IH.
Qed.

Lemma str_take_length (n : nat) (s : string) :
  (String.length (str_take n s) ≤ n)%nat.
Proof.
  unfold str_take. revert n. induction s as [|c s IH]; intros [|n]; simpl;
    try lia. specialize (IH n). lia.
Qed.

Lemma extraction_prompt_prefix (what prefix rest1 rest2 : string) :
  String.length prefix = 3000%nat →
  extraction_prompt what (prefix +:+ rest1)
  = extraction_prompt what (prefix +:+ rest2).
Proof.
  intros Hlen. unfold extraction_prompt. by rewrite !str_take_app.
Qed.

(** X12. An extractor sends at most the first 3000 characters of the
    document: the excerpt in its prompt is no longer than that, and two
    texts with the same first 3000 characters give the same program for
    each of the three extractors, whatever the filenames. *)
Theorem extractors_read_first_3000 `{Pydantic}
    (prefix rest1 rest2 filename1 filename2 : string) :
  String.length prefix = 3000%nat →
  (∀ text, String.length (str_take 3000 text) ≤ 3000)%nat
  ∧ BillAgent_process (prefix +:+ rest1) filename1
    = BillAgent_process (prefix +:+ rest2) filename2
  ∧ DischargeAgent_process (prefix +:+ rest1) filename1
    = DischargeAgent_process (prefix +:+ rest2) filename2
  ∧ IDCardAgent_process (prefix +:+ rest1) filename1
    = IDCardAgent_process (prefix +:+ rest2) filename2.
Proof.
  intros Hlen. split; [intros; apply str_take_length|].
  unfold BillAgent_process, DischargeAgent_process, IDCardAgent_process.
  by rewrite !(extraction_prompt_prefix _ prefix rest1 rest2 Hlen).
Qed.

(** Witness of X12: two texts that differ after 3000 letters. *)
Lemma extractors_read_first_3000_witness :
  @BillAgent_process sample_pydantic (filler 3000 +:+ "Total: 150") "a.pdf"
  = @BillAgent_process sample_pydantic (filler 3000 +:+ "Total: 999") "b.pdf".
Proof.
  apply (@extractors_read_first_3000 sample_pydantic (filler 3000)).
  vm_compute. reflexivity.
Defined.

Section Extractors.
Context `{Pydantic} {S : Type} (h : handler Collab S).

Lemma trace_extractor {A} (prompt system_prompt : string) (schema : Schema)
    (init : json → result A) (sentinel : A) (s : S) :
  trace h (try_except
             (response ← call (get_structured_output prompt system_prompt schema);
              lift (init response))
             (λ _, Ret sentinel)) s
  = [Event (get_structured_output prompt system_prompt schema)].
Proof.
  rewrite trace_try_except. unfold mbind, Prog_bind.
  rewrite trace_bind, trace_call, run_bind, run_call.
  destruct (h _ (get_structured_output prompt system_prompt schema) s)
    as [[response|e] s']; [|done].
  rewrite run_lift. by destruct (init response).
Qed.

Lemma extractor_result {A} (prompt system_prompt : string) (schema : Schema)
    (init : json → result A) (sentinel d : A) (s s' : S) :
  run h (try_except
           (response ← call (get_structured_output prompt system_prompt schema);
            lift (init response))
           (λ _, Ret sentinel)) s = (Ok d, s') →
  d = sentinel
  ∨ ∃ response,
      h _ (get_structured_output prompt system_prompt schema) s
      = (Ok response, s')
      ∧ init response = Ok d.
Proof.
  rewrite run_extractor.
  destruct (h _ (get_structured_output prompt system_prompt schema) s)
    as [[response|e] s0].
  - destruct (init response) as [d0|e] eqn:Hinit; intros [= <- <-]; [|by left].
    right. by exists response.
  - intros [= <- <-]. by left.
Qed.

Lemma extractor_returns {A} (prompt system_prompt : string) (schema : Schema)
    (init : json → result A) (sentinel : A) (s : S) :
  ∃ d s',
    run h (try_except
             (response ← call (get_structured_output prompt system_prompt schema);
              lift (init response))
             (λ _, Ret sentinel)) s = (Ok d, s').
Proof.
  rewrite run_extractor.
  destruct (h _ (get_structured_output prompt system_prompt schema) s)
    as [[response|e] s']; [|by eauto].
  destruct (init response); eauto.
Qed.

Lemma real_agent_returns (ty text filename : string) (s : S) :
  ty ∈ valid_types →
  ∃ process d s',
    agent_map ClaimOrchestrator_init ty = Some process
    ∧ run h (process text filename) s = (Ok d, s')
    ∧ doc_type d = ty.
Proof.
  intros Hty. apply list_elem_of_In in Hty. simpl in Hty.
  destruct Hty as [<-|[<-|[<-|[]]]].
  - destruct (extractor_returns (extraction_prompt "medical bill" text)
                bill_system_prompt BillDocument_schema BillDocument_init
                bill_sentinel s) as (d & s' & Hrun).
    eexists _, (Bill d), s'. split; [reflexivity|]. split; [|done].
    rewrite run_bind. cbn [bill_agent ClaimOrchestrator_init].
    unfold BillAgent_process. by rewrite Hrun.
  - destruct (extractor_returns (extraction_prompt "discharge summary" text)
                discharge_system_prompt DischargeSummaryDocument_schema
                DischargeSummaryDocument_init discharge_sentinel s)
      as (d & s' & Hrun).
    eexists _, (DischargeSummary d), s'. split; [reflexivity|]. split; [|done].
    rewrite run_bind. cbn [discharge_agent ClaimOrchestrator_init].
    unfold DischargeAgent_process. by rewrite Hrun.
  - destruct (extractor_returns (extraction_prompt "insurance ID card" text)
                id_card_system_prompt IDCardDocument_schema IDCardDocument_init
                id_card_sentinel s) as (d & s' & Hrun).
    eexists _, (IDCard d), s'. split; [reflexivity|]. split; [|done].
    rewrite run_bind. cbn [id_card_agent ClaimOrchestrator_init].
    unfold IDCardAgent_process. by rewrite Hrun.
Qed.
End Extractors.

(** X13. Under every behaviour of the collaborator, each extractor makes
    exactly one call, the structured-output request with its own system
    prompt and schema: no second attempt after a failure, no other call. *)
Theorem extractors_call_once `{Pydantic}
    (S : Type) (h : handler Collab S) (s : S) (text filename : string) :
  trace h (BillAgent_process text filename) s
  = [Event (get_structured_output (extraction_prompt "medical bill" text)
              bill_system_prompt BillDocument_schema)]
  ∧ trace h (DischargeAgent_process text filename) s
    = [Event (get_structured_output (extraction_prompt "discharge summary" text)
                discharge_system_prompt DischargeSummaryDocument_schema)]
  ∧ trace h (IDCardAgent_process text filename) s
    = [Event (get_structured_output (extraction_prompt "insurance ID card" text)
                id_card_system_prompt IDCardDocument_schema)].
Proof. split; [|split]; apply trace_extractor. Qed.

(** X14. A record returned by an extractor is either the record that the
    model accepted from the collaborator's answer to that one call, or the
    sentinel of the extractor. *)
Theorem extractor_returns_validated_or_sentinel `{Pydantic}
    (S : Type) (h : handler Collab S) (s s' : S) (text filename : string) :
  (∀ d, run h (BillAgent_process text filename) s = (Ok d, s') →
        d = bill_sentinel
        ∨ ∃ response,
            h _ (get_structured_output (extraction_prompt "medical bill" text)
                   bill_system_prompt BillDocument_schema) s
            = (Ok response, s')
            ∧ BillDocument_init response = Ok d)
  ∧ (∀ d, run h (DischargeAgent_process text filename) s = (Ok d, s') →
          d = discharge_sentinel
          ∨ ∃ response,
              h _ (get_structured_output
                     (extraction_prompt "discharge summary" text)
                     discharge_system_prompt DischargeSummaryDocument_schema) s
              = (Ok response, s')
              ∧ DischargeSummaryDocument_init response = Ok d)
  ∧ (∀ d, run h (IDCardAgent_process text filename) s = (Ok d, s') →
          d = id_card_sentinel
          ∨ ∃ response,
              h _ (get_structured_output
                     (extraction_prompt "insurance ID card" text)
                     id_card_system_prompt IDCardDocument_schema) s
              = (Ok response, s')
              ∧ IDCardDocument_init response = Ok d).
Proof. split; [|split]; intros d; apply extractor_result. Qed.

(** ** Routing and the loop of step 3 *)

Section Routing.
Context `{Pydantic} {S : Type} (h : handler Collab S).

Lemma agent_map_None (self : ClaimOrchestrator) (ty : string) :
  agent_map self ty = None ↔ ty ∉ valid_types.
Proof.
  unfold agent_map, valid_types.
  destruct (String.eqb_spec ty "bill") as [->|Hb].
  { split; [done|]. intros Hn. exfalso. apply Hn. by left. }
  destruct (String.eqb_spec ty "discharge_summary") as [->|Hd].
  { split; [done|]. intros Hn. exfalso. apply Hn. right. by left. }
  destruct (String.eqb_spec ty "id_card") as [->|Hi].
  { split; [done|]. intros Hn. exfalso. apply Hn. right. right. by left. }
  split; [|done]. intros _.
  rewrite !elem_of_cons, elem_of_nil. tauto.
Qed.

Lemma agent_map_Some (self : ClaimOrchestrator) (ty : string)
    (process : string → string → Prog Collab Document)
    (text filename : string) (s s' : S) (d : Document) :
  agent_map self ty = Some process →
  run h (process text filename) s = (Ok d, s') →
  doc_type d = ty.
Proof.
  unfold agent_map.
  destruct (String.eqb_spec ty "bill") as [->|Hb].
  { intros [= <-]. rewrite run_bind.
    destruct (run h (bill_agent self text filename) s) as [[b|e] s0];
      by intros [= <- <-]. }
  destruct (String.eqb_spec ty "discharge_summary") as [->|Hd].
  { intros [= <-]. rewrite run_bind.
    destruct (run h (discharge_agent self text filename) s) as [[b|e] s0];
      by intros [= <- <-]. }
  destruct (String.eqb_spec ty "id_card") as [->|Hi]; [|done].
  intros [= <-]. rewrite run_bind.
  destruct (run h (id_card_agent self text filename) s) as [[b|e] s0];
    by intros [= <- <-].
Qed.

Lemma route_to_agent_Some (self : ClaimOrchestrator)
    (ty text filename : string) (s s' : S) (d : Document) :
  run h (_route_to_agent self ty text filename) s = (Ok (Some d), s') →
  doc_type d = ty.
Proof.
  rewrite run_route_to_agent.
  destruct (agent_map self ty) as [process|] eqn:Hmap; [|done].
  destruct (run h (process text filename) s) as [[d0|e] s0] eqn:Hrun;
    intros [= <- <-].
  by eapply agent_map_Some.
Qed.

Lemma route_documents_sublist (self : ClaimOrchestrator)
    (items : list (FileInfo * string * string))
    (documents out : list Document) (s s' : S) :
  run h (route_documents self items documents) s = (Ok out, s') →
  ∃ new, out = documents ++ new
         ∧ (doc_type <$> new) `sublist_of` (item_classification <$> items).
Proof.
  revert documents s.
  induction items as [|[[file_info classification] text] rest IH];
    intros documents s.
  - intros [= <- <-]. exists []. by rewrite app_nil_r.
  - cbn [route_documents]. unfold mbind, Prog_bind. rewrite run_bind.
    destruct (run h (_route_to_agent self classification text
                       (fi_filename file_info)) s) as [[[d|]|e] s1] eqn:Hroute.
    + intros (new & -> & Hsub)%IH.
      apply route_to_agent_Some in Hroute.
      exists (d :: new). split; [by rewrite <- app_assoc|].
      rewrite !fmap_cons. unfold item_classification at 1. simpl.
      rewrite Hroute. by apply sublist_skip.
    + intros (new & -> & Hsub)%IH. exists new. split; [done|].
      rewrite fmap_cons. by apply sublist_cons.
    + destruct (route_to_agent_returns h self classification text
                  (fi_filename file_info) s) as (r & s2 & Hr). congruence.
Qed.

Lemma zip3_classifications (file_paths : list FileInfo)
    (classifications extracted_texts : list string) :
  (item_classification <$> zip3 file_paths classifications extracted_texts)
    `sublist_of` classifications
  ∧ (length (zip3 file_paths classifications extracted_texts)
     ≤ length file_paths)%nat.
Proof.
  unfold zip3. revert classifications extracted_texts.
  induction file_paths as [|f fs IH]; intros [|c cs] [|t ts]; simpl;
    try (split; [apply sublist_nil_l|lia]).
  destruct (IH cs ts) as [Hsub Hlen]. split; [by apply sublist_skip|lia].
Qed.
End Routing.

(** X15. Whatever agents the orchestrator holds and however the
    collaborators behave, a document that [_route_to_agent] returns has the
    type it was routed by, one of the three valid types; and for any other
    classification the routing is the plain return of [None], with no
    call. *)
Theorem route_result_matches_classification `{Pydantic}
    (S : Type) (h : handler Collab S) (s : S) (self : ClaimOrchestrator)
    (ty text filename : string) :
  (∀ d s', run h (_route_to_agent self ty text filename) s = (Ok (Some d), s') →
           doc_type d = ty ∧ ty ∈ valid_types)
  ∧ (ty ∉ valid_types → _route_to_agent self ty text filename = Ret None).
Proof.
  split.
  - intros d s' Hrun. split; [by eapply route_to_agent_Some|].
    destruct (decide (ty ∈ valid_types)) as [|Hn]; [done|].
    apply (agent_map_None self) in Hn.
    rewrite run_route_to_agent, Hn in Hrun. discriminate Hrun.
  - intros Hn%(agent_map_None self). unfold _route_to_agent. by rewrite Hn.
Qed.

(** X16. The loop of step 3 only appends: the documents it returns are the
    ones it started with followed by new ones, and the types of the new
    ones, in order, are classifications of the items in the order of the
    items, each item giving one document at most. *)
Theorem route_documents_keeps_order `{Pydantic}
    (S : Type) (h : handler Collab S) (s s' : S) (self : ClaimOrchestrator)
    (items : list (FileInfo * string * string))
    (documents out : list Document) :
  run h (route_documents self items documents) s = (Ok out, s') →
  ∃ new, out = documents ++ new
         ∧ (doc_type <$> new) `sublist_of` (item_classification <$> items)
         ∧ (length new ≤ length items)%nat.
Proof.
  intros (new & -> & Hsub)%route_documents_sublist.
  exists new. split; [done|]. split; [done|].
  apply sublist_length in Hsub. by rewrite !length_fmap in Hsub.
Qed.

(** Witness of X16: with every call failing, a bill and an unknown
    classification give one document, the bill sentinel. *)
Lemma route_documents_keeps_order_witness :
  ∃ new,
    [Bill bill_sentinel] = [] ++ new
    ∧ (doc_type <$> new) `sublist_of` ["bill"; "letter"]
    ∧ (length new ≤ 2)%nat.
Proof.
  apply (@route_documents_keeps_order sample_pydantic unit failing_handler
           tt tt ClaimOrchestrator_init
           [(mkFileInfo "/tmp/bill.pdf" "bill.pdf", "bill", "Total: 150");
            (mkFileInfo "/tmp/x.pdf" "x.pdf", "letter", "Dear")]
           [] [Bill bill_sentinel]).
  vm_compute. reflexivity.
Defined.

(** X17. With the orchestrator's own three extractors, no file with a valid
    classification is dropped: the loop of step 3 appends exactly one
    document for each item classified "bill", "discharge_summary" or
    "id_card", of that type and in the order of the items, and none for
    the other items. *)
Theorem real_agents_one_document_per_valid_item `{Pydantic}
    (S : Type) (h : handler Collab S) (s s' : S)
    (items : list (FileInfo * string * string))
    (documents out : list Document) :
  run h (route_documents ClaimOrchestrator_init items documents) s
  = (Ok out, s') →
  ∃ new, out = documents ++ new
         ∧ doc_type <$> new
           = filter (λ c, c ∈ valid_types) (item_classification <$> items).
Proof.
  revert documents s.
  induction items as [|[[file_info classification] text] rest IH];
    intros documents s.
  - intros [= <- <-]. exists []. by rewrite app_nil_r.
  - cbn [route_documents]. unfold mbind, Prog_bind.
    rewrite run_bind, run_route_to_agent, fmap_cons.
    unfold item_classification at 1. simpl.
    destruct (decide (classification ∈ valid_types)) as [Hv|Hv].
    + destruct (real_agent_returns h classification text
                  (fi_filename file_info) s Hv)
        as (process & d & s1 & -> & -> & Hty).
      intros (new & -> & Hnew)%IH. exists (d :: new).
      split; [by rewrite <- app_assoc|].
      rewrite filter_cons_True by done. by rewrite fmap_cons, Hty, Hnew.
    + rewrite (proj2 (agent_map_None ClaimOrchestrator_init classification) Hv).
      intros (new & -> & Hnew)%IH. exists new. split; [done|].
      by rewrite filter_cons_False.
Qed.

(** Witness of X17: the same two items with the real extractors. *)
Lemma real_agents_one_document_per_valid_item_witness :
  ∃ new,
    [Bill bill_sentinel] = [] ++ new
    ∧ doc_type <$> new
      = filter (λ c, c ∈ valid_types) ["bill"; "letter"].
Proof.
  apply (@real_agents_one_document_per_valid_item sample_pydantic unit
           failing_handler tt tt
           [(mkFileInfo "/tmp/bill.pdf" "bill.pdf", "bill", "Total: 150");
            (mkFileInfo "/tmp/x.pdf" "x.pdf", "letter", "Dear")]
           [] [Bill bill_sentinel]).
  vm_compute. reflexivity.
Defined.

(** X18. A response of steps 3 to 6 is consistent: it counts all input
    files, holds no more documents than files, lists the types of its
    documents, which are classifications in their order; its validation and
    decision are those of its documents; its validation status is "passed"
    exactly when there is no discrepancy; and an approved response has
    status "passed" and the three required types among its documents. *)
Theorem pipeline_response_consistent `{Pydantic}
    (S : Type) (h : handler Collab S) (s s' : S) (self : ClaimOrchestrator)
    (file_paths : list FileInfo) (classifications extracted_texts : list string)
    (response : ClaimProcessingResponse) :
  run h (process_claim_stages_3_to_6 self file_paths classifications
           extracted_texts) s = (Ok response, s') →
  total_files_processed response = length file_paths
  ∧ (length (documents response) ≤ length file_paths)%nat
  ∧ document_types_found response = doc_type <$> documents response
  ∧ document_types_found response `sublist_of` classifications
  ∧ validation response = validate (documents response)
  ∧ claim_decision response
    = _make_decision (documents response) (validation response)
  ∧ (validation_status response = "passed"
     ↔ discrepancies (validation response) = [])
  ∧ (status (claim_decision response) = approved →
     validation_status response = "passed"
     ∧ required_types ⊆ doc_types (documents response)).
Proof.
  unfold process_claim_stages_3_to_6, mbind, Prog_bind. rewrite run_bind.
  destruct (run h (route_documents self
                     (zip3 file_paths classifications extracted_texts) []) s)
    as [[docs|e] s1] eqn:Hroute; [|discriminate].
  intros [= <- <-]. cbn [total_files_processed documents document_types_found
    validation claim_decision validation_status].
  apply route_documents_sublist in Hroute as (new & Hdocs & Hsub).
  rewrite app_nil_l in Hdocs. subst docs.
  destruct (zip3_classifications file_paths classifications extracted_texts)
    as [Hcls Hlen].
  split; [done|]. split.
  { apply sublist_length in Hsub. rewrite !length_fmap in Hsub. lia. }
  split; [done|]. split; [by etrans|]. split; [done|]. split; [done|].
  assert (Hpassed : match discrepancies (validate new) with
                    | [] => "passed" | _ :: _ => "issues_found" end = "passed"
                    ↔ discrepancies (validate new) = []).
  { by destruct (discrepancies (validate new)). }
  split; [exact Hpassed|].
  intros (_ & Hnil & Hsup)%decision_approved_no_discrepancy.
  split; [by apply Hpassed|done].
Qed.

(** Witness of X18: one bill file with every call failing. *)
Lemma pipeline_response_consistent_witness :
  ∃ response,
    run (@failing_handler sample_pydantic)
        (process_claim_stages_3_to_6 ClaimOrchestrator_init
           [mkFileInfo "/tmp/bill.pdf" "bill.pdf"] ["bill"] ["Total: 150"]) tt
    = (Ok response, tt)
    ∧ total_files_processed response = 1%nat
    ∧ document_types_found response = ["bill"].
Proof.
  eexists. split; [vm_compute; reflexivity|].
  pose proof (@pipeline_response_consistent sample_pydantic unit
                failing_handler tt tt ClaimOrchestrator_init
                [mkFileInfo "/tmp/bill.pdf" "bill.pdf"] ["bill"] ["Total: 150"]
                _ ltac:(vm_compute; reflexivity)) as (Htotal & _ & Htypes & _).
  split; [exact Htotal|]. rewrite Htypes. reflexivity.
Defined.

(** ** The batch validation, both ways *)

Lemma upload_size_nonneg (file : UploadFile) : 0 ≤ upload_size file.
Proof. unfold upload_size. lia. Qed.

Lemma not_offending_iff (file : UploadFile) :
  ¬ offending file
  ↔ pdf_name file = true ∧ 1 ≤ upload_size file ≤ 26214400.
Proof.
  unfold offending. pose proof (upload_size_nonneg file).
  change MAX_FILE_SIZE with 26214400.
  destruct (pdf_name file); split.
  - intros Hok. split; [done|].
    assert (upload_size file ≠ 0) by tauto.
    assert (¬ 26214400 < upload_size file) by tauto. lia.
  - intros [_ Hsize] [?|[?|?]]; [done|lia..].
  - intros Hok. exfalso. apply Hok. by left.
  - by intros [? _].
Qed.

Lemma validate_each_ok_iff (files : list UploadFile) :
  validate_each files = Ok true ↔ ∀ f, f ∈ files → ¬ offending f.
Proof.
  induction files as [|f files IH]; simpl.
  - split; [|done]. intros _ f Hf. by apply not_elem_of_nil in Hf.
  - destruct (decide (offending f)) as [Hoff|Hok].
    + destruct (validate_pdf_file_offending f Hoff) as (msg & -> & _).
      split; [done|]. intros Hall. exfalso. apply (Hall f); [by left|done].
    + rewrite (validate_pdf_file_ok f Hok), IH. split.
      * intros Hall g [->|Hg]%elem_of_cons; [done|by apply Hall].
      * intros Hall g Hg. apply Hall. by right.
Qed.

Lemma validate_each_result (files : list UploadFile) :
  validate_each files = Ok true
  ∨ ∃ f msg, f ∈ files ∧ validate_each files = Err (ValueError msg)
             ∧ (msg = msg_not_pdf (filename f)
                ∨ msg = msg_too_large (filename f) (upload_size f)
                ∨ msg = msg_empty (filename f)).
Proof.
  induction files as [|f files IH]; simpl; [by left|].
  destruct (decide (offending f)) as [Hoff|Hok].
  - right. destruct (validate_pdf_file_offending f Hoff) as (msg & -> & _ & Hc).
    exists f, msg. split; [by left|]. split; [done|].
    destruct Hc as [(_ & ->)|[(_ & _ & ->)|(_ & _ & ->)]]; auto.
  - rewrite (validate_pdf_file_ok f Hok).
    destruct IH as [->|(g & msg & Hg & -> & Hc)]; [by left|].
    right. exists g, msg. split; [by right|done].
Qed.

Lemma validate_pdf_files_never_false (files : list UploadFile) :
  validate_pdf_files files ≠ Ok false.
Proof.
  unfold validate_pdf_files. destruct (length files <? 1)%nat; [discriminate|].
  destruct (validate_each_result files) as [->|(g & msg & _ & -> & _)];
    discriminate.
Qed.

(** X19. [validate_pdf_files] accepts a batch exactly when it has at least
    one file and every file has a name ending in ".pdf" (in any letter
    case) and between 1 and 26214400 bytes; the value it returns is then
    [True], never [False]. *)
Theorem validate_pdf_files_accepts_iff (files : list UploadFile) :
  (validate_pdf_files files = Ok true
   ↔ files ≠ []
     ∧ ∀ f, f ∈ files →
            pdf_name f = true ∧ 1 ≤ upload_size f ≤ 26214400)
  ∧ validate_pdf_files files ≠ Ok false.
Proof.
  unfold validate_pdf_files. destruct files as [|f files].
  - split; [|done]. simpl. split; [done|]. by intros [? _].
  - assert ((length (f :: files) <? 1)%nat = false) as -> by reflexivity.
    split.
    + rewrite validate_each_ok_iff. split.
      * intros Hall. split; [done|]. intros g Hg.
        by apply not_offending_iff, Hall.
      * intros [_ Hall] g Hg. by apply not_offending_iff, Hall.
    + destruct (validate_each_result (f :: files)) as [->|(g & msg & _ & -> & _)];
        discriminate.
Qed.

(** X20. [validate_pdf_files] raises nothing but a [ValueError], with one
    of four messages: no file, not a PDF, too large, empty, the last three
    about a file of the batch.  The message "Invalid filename" is never
    raised: a name that passes the extension test is not empty. *)
Theorem validate_pdf_files_errors (files : list UploadFile) (e : exn) :
  validate_pdf_files files = Err e →
  ∃ msg,
    e = ValueError msg
    ∧ msg ≠ msg_invalid_filename
    ∧ (msg = msg_no_files
       ∨ ∃ f, f ∈ files
              ∧ (msg = msg_not_pdf (filename f)
                 ∨ msg = msg_too_large (filename f) (upload_size f)
                 ∨ msg = msg_empty (filename f))).
Proof.
  unfold validate_pdf_files. destruct files as [|f files].
  - intros [= <-]. exists msg_no_files. split; [done|]. split; [|by left].
    discriminate.
  - assert ((length (f :: files) <? 1)%nat = false) as -> by reflexivity.
    destruct (validate_each_result (f :: files))
      as [->|(g & msg & Hg & -> & Hc)]; [discriminate|].
    intros [= <-]. exists msg. split; [done|]. split.
    + intros Heq. rewrite Heq in Hc.
      destruct Hc as [Hc|[Hc|Hc]];
        unfold msg_invalid_filename, msg_not_pdf, msg_too_large, msg_empty in Hc;
        rewrite ?str_app_cons in Hc; discriminate Hc.
    + right. by exists g.
Qed.

(** Witness of X20: a text file. *)
Lemma validate_pdf_files_errors_witness :
  ∃ msg,
    ValueError "❌ 'notes.txt' is not a PDF" = ValueError msg
    ∧ msg ≠ msg_invalid_filename.
Proof.
  destruct (validate_pdf_files_errors
              [mkUpload "notes.txt" ["x"%byte]]
              (ValueError "❌ 'notes.txt' is not a PDF") eq_refl)
    as (msg & Hmsg & Hne & _).
  by exists msg.
Defined.

(** ** The endpoint *)

Section Endpoint.
Context {S : Type} (h : handler Endpoint S).

Lemma save_uploads_ok (temp_dir : string) (files : list UploadFile)
    (acc out : list FileInfo) (s s' : S) :
  run h (save_uploads temp_dir files acc) s = (Ok out, s') →
  (∃ new, out = acc ++ new ∧ fi_filename <$> new = filename <$> files)
  ∧ trace h (save_uploads temp_dir files acc) s
    = (λ f : UploadFile, Event (write_upload temp_dir (filename f) (content f)))
        <$> files.
Proof.
  revert acc s. induction files as [|f files IH]; intros acc s.
  - intros [= <- <-]. split; [|done]. exists []. by rewrite app_nil_r.
  - cbn [save_uploads]. unfold mbind, Prog_bind.
    rewrite run_bind, trace_bind, run_call, trace_call.
    destruct (h _ (write_upload temp_dir (filename f) (content f)) s)
      as [[p|e] s1]; [|discriminate].
    intros Hrun. destruct (IH _ _ Hrun) as [(new & -> & Hnames) Htrace].
    split.
    + eexists (_ :: new). split; [by rewrite <- app_assoc|].
      by rewrite !fmap_cons, Hnames.
    + by rewrite Htrace.
Qed.

Lemma endpoint_handler_raises (value_error_subclass : string → bool)
    (e : exn) (s : S) :
  ∃ code detail,
    run h (if isinstance_ValueError value_error_subclass e
           then Raise (HTTPException 400 (exn_str e))
           else Raise (HTTPException 500
                         ("Internal server error: " +:+ exn_str e))
           : Prog Endpoint ClaimProcessingResponse) s
    = (Err (HTTPException code detail), s)
    ∧ (code = 400 ∨ code = 500).
Proof.
  destruct (isinstance_ValueError value_error_subclass e);
    eexists _, _; split; try reflexivity; auto.
Qed.
End Endpoint.

(** X21. Whatever the uploads and the behaviour of the file system and of
    the orchestrator, the endpoint raises nothing but an [HTTPException],
    with status 400, 500 or 503, and 503 exactly when no orchestrator was
    built. *)
Theorem endpoint_raises_only_http
    (S : Type) (h : handler Endpoint S) (s s' : S)
    (value_error_subclass : string → bool)
    (orchestrator : bool) (files : list UploadFile) (e : exn) :
  run h (process_claim value_error_subclass orchestrator files) s = (Err e, s') →
  ∃ code detail,
    e = HTTPException code detail
    ∧ (code = 400 ∨ code = 500 ∨ code = 503)
    ∧ (code = 503 ↔ orchestrator = false).
Proof.
  unfold process_claim. destruct orchestrator; simpl.
  - rewrite run_try_except.
    match goal with
    | |- context [run h ?body s] =>
        destruct (run h body s) as [[r|e0] s0]; [discriminate|]
    end.
    destruct (endpoint_handler_raises h value_error_subclass e0 s0)
      as (code & detail & -> & Hc).
    intros [= <- <-]. exists code, detail. split; [done|].
    split; [tauto|]. split; [|done]. intros ->. by destruct Hc.
  - intros [= <- <-]. eexists _, _. split; [done|]. split; [auto|done].
Qed.

(** Witness of X21: the 0-byte "bill.pdf" gives status 400. *)
Lemma endpoint_raises_only_http_witness :
  ∃ code detail,
    HTTPException 400 "❌ 'bill.pdf' is empty" = HTTPException code detail
    ∧ (code = 400 ∨ code = 500 ∨ code = 503)
    ∧ (code = 503 ↔ true = false).
Proof.
  apply (endpoint_raises_only_http unit orchestrator_value_error tt tt
           sample_value_error_subclass true [mkUpload "bill.pdf" []]).
  reflexivity.
Defined.

(** X22. When the endpoint returns a response, the batch was valid and the
    calls were, in order: the temporary directory, one write per upload with
    its name and bytes, and one call of the orchestrator, whose file list
    has the names of the uploads in their order and whose response is the
    one returned. *)
Theorem endpoint_success_calls
    (S : Type) (h : handler Endpoint S) (s s' : S)
    (value_error_subclass : string → bool)
    (files : list UploadFile) (response : ClaimProcessingResponse) :
  run h (process_claim value_error_subclass true files) s = (Ok response, s') →
  validate_pdf_files files = Ok true
  ∧ ∃ temp_dir file_paths s0,
      trace h (process_claim value_error_subclass true files) s
      = upload_events temp_dir files file_paths
      ∧ fi_filename <$> file_paths = filename <$> files
      ∧ h _ (orchestrator_process_claim file_paths) s0 = (Ok response, s').
Proof.
  unfold process_claim. simpl negb. cbv iota.
  rewrite run_try_except, trace_try_except. unfold mbind, Prog_bind.
  rewrite !run_bind, !trace_bind, run_lift.
  destruct (validate_pdf_files files) as [b|e] eqn:Hv.
  2:{ destruct (endpoint_handler_raises h value_error_subclass e s)
        as (c & d & -> & _).
      discriminate. }
  assert (b = true) as ->.
  { destruct b; [done|]. by apply validate_pdf_files_never_false in Hv. }
  rewrite !run_bind, !trace_bind, run_call, trace_call.
  destruct (h _ TemporaryDirectory s) as [[temp_dir|e] s1].
  2:{ destruct (endpoint_handler_raises h value_error_subclass e s1)
        as (c & d & -> & _).
      discriminate. }
  rewrite !run_bind, !trace_bind.
  destruct (run h (save_uploads temp_dir files []) s1) as [[fps|e] s2] eqn:Hsave.
  2:{ destruct (endpoint_handler_raises h value_error_subclass e s2)
        as (c & d & -> & _).
      discriminate. }
  destruct (save_uploads_ok h _ _ _ _ _ _ Hsave) as [(new & -> & Hnames) Htr].
  rewrite run_call, trace_call.
  destruct (h _ (orchestrator_process_claim ([] ++ new)) s2)
    as [[r|e] s3] eqn:Horch.
  2:{ destruct (endpoint_handler_raises h value_error_subclass e s3)
        as (c & d & -> & _).
      discriminate. }
  intros [= <- <-]. split; [done|].
  exists temp_dir, ([] ++ new), s2. split; [|done].
  unfold upload_events. rewrite Htr. simpl. by rewrite app_nil_r.
Qed.

(** Witness of X22: one valid upload in a system where every call
    succeeds. *)
Lemma endpoint_success_calls_witness :
  validate_pdf_files [mkUpload "bill.pdf" ["x"%byte]] = Ok true
  ∧ ∃ temp_dir file_paths s0,
      trace succeeding_system
        (process_claim sample_value_error_subclass true
           [mkUpload "bill.pdf" ["x"%byte]]) tt
      = upload_events temp_dir [mkUpload "bill.pdf" ["x"%byte]] file_paths
      ∧ fi_filename <$> file_paths
        = filename <$> [mkUpload "bill.pdf" ["x"%byte]]
      ∧ succeeding_system _ (orchestrator_process_claim file_paths) s0
        = (Ok sample_response, tt).
Proof.
  apply (endpoint_success_calls unit succeeding_system tt tt
           sample_value_error_subclass
           [mkUpload "bill.pdf" ["x"%byte]] sample_response).
  vm_compute. reflexivity.
Defined.

(** X23. After a valid batch was saved, an exception of the orchestrator
    reaches the client as an [HTTPException]: status 400 with its message
    when it is a [ValueError] or of a class derived from it, as for a
    validation error of the batch; status 500 with "Internal server
    error: " before its text otherwise, an [HTTPException] of the
    orchestrator included. *)
Theorem endpoint_maps_orchestrator_errors
    (S : Type) (h : handler Endpoint S) (s s1 s2 s3 : S)
    (value_error_subclass : string → bool)
    (files : list UploadFile) (temp_dir : string)
    (file_paths : list FileInfo) (e : exn) :
  validate_pdf_files files = Ok true →
  h _ TemporaryDirectory s = (Ok temp_dir, s1) →
  run h (save_uploads temp_dir files []) s1 = (Ok file_paths, s2) →
  h _ (orchestrator_process_claim file_paths) s2 = (Err e, s3) →
  let outcome := run h (process_claim value_error_subclass true files) s in
  (∀ msg, e = ValueError msg →
          outcome = (Err (HTTPException 400 msg), s3))
  ∧ (∀ class_name msg,
       e = OtherException class_name msg →
       value_error_subclass class_name = true →
       outcome = (Err (HTTPException 400 msg), s3))
  ∧ (∀ class_name msg,
       e = OtherException class_name msg →
       value_error_subclass class_name = false →
       outcome
       = (Err (HTTPException 500 ("Internal server error: " +:+ msg)), s3))
  ∧ (∀ code detail,
       e = HTTPException code detail →
       outcome
       = (Err (HTTPException 500
                 ("Internal server error: " +:+ pretty code +:+ ": "
                  +:+ detail)), s3)).
Proof.
  intros Hv Htmp Hsave Horch outcome. subst outcome.
  assert (Hrun : ∀ k : exn → Prog Endpoint ClaimProcessingResponse,
            run h (try_except
                     (_ ← lift (validate_pdf_files files);
                      temp_dir ← call TemporaryDirectory;
                      file_paths ← save_uploads temp_dir files [];
                      call (orchestrator_process_claim file_paths)) k) s
            = run h (k e) s3).
  { intros k. rewrite run_try_except. unfold mbind, Prog_bind.
    rewrite run_bind, run_lift, Hv, run_bind, run_call, Htmp.
    by rewrite run_bind, Hsave, run_call, Horch. }
  unfold process_claim. simpl negb. cbv iota. rewrite Hrun.
  split; [|split; [|split]].
  - by intros msg ->.
  - intros class_name msg -> Hsub. cbn [isinstance_ValueError]. by rewrite Hsub.
  - intros class_name msg -> Hsub. cbn [isinstance_ValueError]. by rewrite Hsub.
  - by intros code detail ->.
Qed.

(** Witness of X23: a valid one-file batch and an orchestrator that raises
    a [ValueError], and one that raises a [JSONDecodeError]. *)
Lemma endpoint_maps_orchestrator_errors_witness :
  run orchestrator_value_error
      (process_claim sample_value_error_subclass true
         [mkUpload "bill.pdf" ["x"%byte]]) tt
  = (Err (HTTPException 400 "bad value"), tt)
  ∧ run orchestrator_json_error
        (process_claim sample_value_error_subclass true
           [mkUpload "bill.pdf" ["x"%byte]]) tt
    = (Err (HTTPException 400 "Expecting value"), tt).
Proof.
  pose proof (endpoint_maps_orchestrator_errors unit orchestrator_value_error
                tt tt tt tt sample_value_error_subclass
                [mkUpload "bill.pdf" ["x"%byte]] _ _ _
                eq_refl eq_refl eq_refl eq_refl) as (Hvalue & _).
  pose proof (endpoint_maps_orchestrator_errors unit orchestrator_json_error
                tt tt tt tt sample_value_error_subclass
                [mkUpload "bill.pdf" ["x"%byte]] _ _ _
                eq_refl eq_refl eq_refl eq_refl) as (_ & Hjson & _).
  split.
  - by apply Hvalue.
  - by apply (Hjson "JSONDecodeError").
Defined.

(** ** The services *)

Section ServiceRuns.
Context {S : Type} (h : handler Sys S).

Lemma run_reraise {A} (p : Prog Sys A) (s : S) :
  run h (try_except p (λ e, Raise e)) s = run h p s.
Proof.
  rewrite run_try_except. by destruct (run h p s) as [[a|e] s'].
Qed.

Lemma trace_reraise {A} (p : Prog Sys A) (s : S) :
  trace h (try_except p (λ e, Raise e)) s = trace h p s.
Proof.
  rewrite trace_try_except.
  destruct (run h p s) as [[a|e] s']; simpl; by rewrite app_nil_r.
Qed.
End ServiceRuns.

(** X24. [extract_text] never hands blank text to the pipeline.  When the
    file exists, has a ".pdf" suffix and is read, and the model answers:
    an answer without text, or with a text that is empty or made of
    whitespace, is replaced by "[PDF content could not be extracted]", and
    any other text is returned as it is.  So, whatever the file system and
    the model do, a text that [extract_text] returns is neither empty nor
    made of whitespace. *)
Theorem extract_text_never_blank
    (S : Type) (h : handler Sys S) (s : S)
    (path_suffix : string → string) (pdf_path : string) :
  let p := PDFService_extract_text path_suffix pdf_path in
  (∀ s1 s2 s3 data answer,
     h _ (path_exists pdf_path) s = (true, s1) →
     PyStr.lower (path_suffix pdf_path) = ".pdf" →
     h _ (read_bytes pdf_path) s1 = (Ok data, s2) →
     h _ (generate_content gemini_model
            (PdfContents data pdf_extraction_prompt)
            {| temperature := FReal 0.0; response_mime_type := None;
               response_schema := None |}) s2 = (Ok answer, s3) →
     (answer = None → run h p s = (Ok pdf_placeholder, s3))
     ∧ (∀ t, answer = Some t → PyStr.strip t = EmptyString →
             run h p s = (Ok pdf_placeholder, s3))
     ∧ (∀ t, answer = Some t → PyStr.strip t ≠ EmptyString →
             run h p s = (Ok t, s3)))
  ∧ (∀ text s', run h p s = (Ok text, s') →
                text ≠ EmptyString ∧ PyStr.strip text ≠ EmptyString).
Proof.
  intros p. subst p. split.
  - intros s1 s2 s3 data answer Hex Hsuf Hread Hgen.
    unfold PDFService_extract_text. rewrite run_reraise. cbn [run].
    rewrite Hex. cbn [negb]. rewrite Hsuf.
    assert (String.eqb ".pdf" ".pdf" = true) as -> by reflexivity. cbn [negb].
    unfold mbind, Prog_bind.
    rewrite run_bind, run_call, Hread, run_bind, run_call, Hgen.
    split; [|split].
    + by intros ->.
    + intros t -> Hblank. rewrite Hblank. cbn [String.length Nat.eqb].
      by rewrite orb_true_r.
    + intros t -> Hfull.
      assert (PyStr.truthy t = true) as ->.
      { destruct t; [by vm_compute in Hfull|done]. }
      assert ((String.length (PyStr.strip t) =? 0)%nat = false) as ->; [|done].
      apply Nat.eqb_neq. by destruct (PyStr.strip t).
  - intros text s'.
    unfold PDFService_extract_text. rewrite run_reraise. cbn [run].
    destruct (h _ (path_exists pdf_path) s) as [found s1].
    destruct found; cbn [negb]; [|discriminate].
    destruct (negb (String.eqb (PyStr.lower (path_suffix pdf_path)) ".pdf"));
      [discriminate|].
    unfold mbind, Prog_bind. rewrite run_bind, run_call.
    destruct (h _ (read_bytes pdf_path) s1) as [[data|e] s2]; [|discriminate].
    rewrite run_bind, run_call.
    destruct (h _ (generate_content gemini_model
                     (PdfContents data pdf_extraction_prompt)
                     {| temperature := FReal 0.0; response_mime_type := None;
                        response_schema := None |}) s2) as [[[t|]|e] s3];
      [| |discriminate].
    + destruct (PyStr.truthy t) eqn:Htr; cbn [negb orb].
      * destruct (String.length (PyStr.strip t) =? 0)%nat eqn:Hlen.
        -- intros [= <- <-]. split; by vm_compute.
        -- intros [= <- <-]. apply Nat.eqb_neq in Hlen.
           split; [by apply truthy_spec|]. intros Heq. by rewrite Heq in Hlen.
      * intros [= <- <-]. split; by vm_compute.
    + intros [= <- <-]. split; by vm_compute.
Qed.

(** Witness of X24: a model that answers with spaces only gets the
    placeholder, and one that answers "Total: 150" gets its text. *)
Lemma extract_text_never_blank_witness :
  run (model_answers (Some "   "))
      (PDFService_extract_text sample_suffix "/tmp/claim/bill.pdf") tt
  = (Ok pdf_placeholder, tt)
  ∧ run (model_answers (Some "Total: 150"))
        (PDFService_extract_text sample_suffix "/tmp/claim/bill.pdf") tt
    = (Ok "Total: 150", tt).
Proof.
  split.
  - destruct (extract_text_never_blank unit (model_answers (Some "   ")) tt
                sample_suffix "/tmp/claim/bill.pdf") as [Hsub _].
    destruct (Hsub tt tt tt ["x"%byte] (Some "   ")
                eq_refl eq_refl eq_refl eq_refl) as (_ & Hblank & _).
    by apply (Hblank "   ").
  - destruct (extract_text_never_blank unit (model_answers (Some "Total: 150"))
                tt sample_suffix "/tmp/claim/bill.pdf") as [Hsub _].
    destruct (Hsub tt tt tt ["x"%byte] (Some "Total: 150")
                eq_refl eq_refl eq_refl eq_refl) as (_ & _ & Hfull).
    by apply (Hfull "Total: 150").
Defined.

(** X25. [extract_text] checks the path before it reads or calls the
    model: for a path that does not exist it raises [FileNotFoundError], and
    for an existing path whose suffix is not ".pdf" (in any letter case) a
    [ValueError]; in both cases its only call is the existence test. *)
Theorem extract_text_checks_path_first
    (S : Type) (h : handler Sys S) (s s1 : S)
    (path_suffix : string → string) (pdf_path : string) (found : bool) :
  h _ (path_exists pdf_path) s = (found, s1) →
  (found = false →
   run h (PDFService_extract_text path_suffix pdf_path) s
   = (Err (OtherException "FileNotFoundError"
             ("❌ PDF not found: " +:+ pdf_path)), s1)
   ∧ trace h (PDFService_extract_text path_suffix pdf_path) s
     = [Event (path_exists pdf_path)])
  ∧ (found = true → PyStr.lower (path_suffix pdf_path) ≠ ".pdf" →
     run h (PDFService_extract_text path_suffix pdf_path) s
     = (Err (ValueError ("❌ Not a PDF file: " +:+ pdf_path)), s1)
     ∧ trace h (PDFService_extract_text path_suffix pdf_path) s
       = [Event (path_exists pdf_path)]).
Proof.
  intros Hh. unfold PDFService_extract_text.
  rewrite run_reraise, trace_reraise. cbn [run trace]. rewrite Hh.
  split.
  - intros ->. done.
  - intros -> Hsuf%String.eqb_neq. cbn [negb]. by rewrite Hsuf.
Qed.

(** Witness of X25: no file at the path. *)
Lemma extract_text_checks_path_first_witness :
  run no_files (PDFService_extract_text sample_suffix "/tmp/claim/bill.pdf") tt
  = (Err (OtherException "FileNotFoundError"
            "❌ PDF not found: /tmp/claim/bill.pdf"), tt)
  ∧ trace no_files (PDFService_extract_text sample_suffix "/tmp/claim/bill.pdf") tt
    = [Event (path_exists "/tmp/claim/bill.pdf")].
Proof.
  apply (extract_text_checks_path_first unit no_files tt tt sample_suffix
           "/tmp/claim/bill.pdf" false); reflexivity.
Defined.

Section StructuredOutput.
Context `{Pydantic} {S : Type} (h : handler Sys S).
Variable json_loads : string → string + json.

Lemma run_get_structured_output (prompt system_prompt : string)
    (schema : Schema) (s : S) :
  run h (LLMService_get_structured_output json_loads prompt system_prompt
           schema) s =
    match h _ (structured_request prompt system_prompt schema) s with
    | (Ok (Some t), s') =>
        match json_loads t with
        | inr v => (Ok v, s')
        | inl msg => (Err (ValueError ("Invalid JSON from LLM: " +:+ msg)), s')
        end
    | (Ok None, s') =>
        (Err (OtherException "TypeError"
                "the JSON object must be str, bytes or bytearray, not NoneType"),
         s')
    | (Err (OtherException class_name msg), s') =>
        if String.eqb class_name "JSONDecodeError"
        then (Err (ValueError ("Invalid JSON from LLM: " +:+ msg)), s')
        else (Err (OtherException class_name msg), s')
    | (Err e, s') => (Err e, s')
    end.
Proof.
  unfold LLMService_get_structured_output, structured_request.
  rewrite run_try_except. unfold mbind, Prog_bind. rewrite run_bind, run_call.
  match goal with
  | |- context [h _ ?ev s] => destruct (h _ ev s) as [[[t|]|e] s']
  end.
  - destruct (json_loads t); reflexivity.
  - reflexivity.
  - destruct e as [msg|code detail|class_name msg]; try reflexivity.
    cbn [run]. by destruct (String.eqb class_name "JSONDecodeError").
Qed.
End StructuredOutput.

(** X26. [get_structured_output] returns only what [json.loads] made of the
    text of the model's answer to its one request (the system prompt, the
    prompt and the JSON reminder, at temperature 0 with the schema); text
    that is not JSON becomes a [ValueError] "Invalid JSON from LLM: ...",
    and an answer without text a [TypeError]. *)
Theorem structured_output_outcomes `{Pydantic}
    (S : Type) (h : handler Sys S) (s s' : S)
    (json_loads : string → string + json)
    (prompt system_prompt : string) (schema : Schema) :
  let p := LLMService_get_structured_output json_loads prompt system_prompt
             schema in
  let ev := structured_request prompt system_prompt schema in
  (∀ v, run h p s = (Ok v, s') →
        ∃ t, h _ ev s = (Ok (Some t), s') ∧ json_loads t = inr v)
  ∧ (∀ t msg, h _ ev s = (Ok (Some t), s') → json_loads t = inl msg →
              run h p s
              = (Err (ValueError ("Invalid JSON from LLM: " +:+ msg)), s'))
  ∧ (h _ ev s = (Ok None, s') →
     ∃ msg, run h p s = (Err (OtherException "TypeError" msg), s')).
Proof.
  intros p ev. subst p ev. rewrite run_get_structured_output.
  split; [|split].
  - intros v.
    destruct (h _ (structured_request prompt system_prompt schema) s)
      as [[[t|]|e] s0].
    + destruct (json_loads t) as [msg|v0] eqn:Hj; intros [= <- <-].
      by exists t.
    + discriminate.
    + destruct e as [msg|code detail|class_name msg]; try discriminate.
      by destruct (String.eqb class_name "JSONDecodeError").
  - intros t msg -> ->. reflexivity.
  - intros ->. by eexists.
Qed.

(** X27. Through the real service, a bill record other than the sentinel
    comes only from a model answer that is JSON and that the model class
    accepts: under every system, [BillAgent.process] over
    [get_structured_output] returns, and returns either the sentinel or the
    record made of the decoded answer to its request. *)
Theorem bill_through_service `{Pydantic}
    (S : Type) (h : handler Sys S) (s : S)
    (json_loads : string → string + json) (path_suffix : string → string)
    (text filename : string) :
  ∃ d s',
    run (services_handler json_loads path_suffix h)
        (BillAgent_process text filename) s = (Ok d, s')
    ∧ (d = bill_sentinel
       ∨ ∃ t v,
           h _ (structured_request (extraction_prompt "medical bill" text)
                  bill_system_prompt BillDocument_schema) s
           = (Ok (Some t), s')
           ∧ json_loads t = inr v
           ∧ BillDocument_init v = Ok d).
Proof.
  unfold BillAgent_process. rewrite run_extractor.
  cbn [services_handler]. rewrite run_get_structured_output.
  destruct (h _ (structured_request (extraction_prompt "medical bill" text)
                   bill_system_prompt BillDocument_schema) s)
    as [[[t|]|e] s0].
  - destruct (json_loads t) as [msg|v] eqn:Hj.
    + exists bill_sentinel, s0. split; [done|by left].
    + destruct (BillDocument_init v) as [d|e] eqn:Hi.
      * exists d, s0. split; [done|]. right. by exists t, v.
      * exists bill_sentinel, s0. split; [done|by left].
  - exists bill_sentinel, s0. split; [done|by left].
  - exists bill_sentinel, s0. split; [|by left].
    destruct e as [msg|code detail|class_name msg]; try reflexivity.
    by destruct (String.eqb class_name "JSONDecodeError").
Qed.
